(** * SKU Performance Analyzer: a shallow embedding of [sku_analyzer.py]

    The script is a Streamlit page that loads a frame of sales rows,
    restricts it to a date window, groups it by SKU, ranks the groups
    by a chosen metric and shows the first N of them.

    Conventions of the model.
    - A pandas frame whose seven columns are all present is a list of
      rows, in frame order.
    - Integer columns are [Z]; price and revenue columns are exact
      rationals [Q].  Overflow of 64-bit integers is outside the model.
      In the first part of the file no cell is missing; the module
      [Csv] further down follows the pipeline on frames with blank
      cells and over any number type, 64-bit floats among them.
    - A column computed by a division is an [fnum]: a rational, an
      infinity or NaN, as pandas yields when the divisor is zero.
    - [datetime64] values are [Z] nanoseconds since the epoch; a
      calendar date is a day number. *)

From Stdlib Require Import List ZArith QArith Qround Bool Lia Lqa Arith.
From Stdlib Require Import String Ascii.
From Stdlib Require Import Permutation Sorted RelationClasses Morphisms.
From Stdlib Require Import OrdersEx.
From Stdlib Require PrimFloat Uint63.
Import ListNotations.

Local Open Scope Z_scope.

(** ** Rows of the sales frame *)

Record TransactionRecord : Type := mkRecord {
  date          : Z;        (* datetime64[ns] *)
  sku           : string;
  product_name  : string;
  category      : string;
  quantity_sold : Z;
  unit_price    : Q;
  total_revenue : Q
}.

Definition DataFrame := list TransactionRecord.

(** ** Date-range filter (lines 116-129) *)

Definition ns_per_day : Z := 86400 * 1000000000.

(** [df['date'].dt.date]: the calendar day of a timestamp. *)
Definition dt_date (t : Z) : Z := t / ns_per_day.

(** Element-wise comparison of the day column with a scalar. *)
Definition col_ge (col : list Z) (d : Z) : list bool := map (fun x => d <=? x) col.
Definition col_le (col : list Z) (d : Z) : list bool := map (fun x => x <=? d) col.

(** [m1 & m2] on two boolean columns of the same frame. *)
Fixpoint mask_and (m1 m2 : list bool) : list bool :=
  match m1, m2 with
  | b1 :: m1', b2 :: m2' => (b1 && b2) :: mask_and m1' m2'
  | _, _ => []
  end.

(** [df[mask]]: the rows whose mask entry is [True], in frame order. *)
Fixpoint select {A : Type} (df : list A) (mask : list bool) : list A :=
  match df, mask with
  | r :: df', b :: mask' => if b then r :: select df' mask' else select df' mask'
  | _, _ => []
  end.

(** The value of the [date_input] widget is a tuple of zero, one or two
    days; the filter applies only when both ends are there. *)
Definition df_filtered (df : DataFrame) (date_range : list Z) : DataFrame :=
  match date_range with
  | [start_date; end_date] =>
      let days := map (fun r => dt_date (date r)) df in
      select df (mask_and (col_ge days start_date) (col_le days end_date))
  | _ => df
  end.

(** The filter in the words of the specification: the rows whose day
    lies in the closed interval. *)
Definition in_range (start_date end_date : Z) (r : TransactionRecord) : bool :=
  (start_date <=? dt_date (date r)) && (dt_date (date r) <=? end_date).

Definition rows_within (start_date end_date : Z) (df : DataFrame) : DataFrame :=
  filter (in_range start_date end_date) df.

(** A range the specification calls malformed: one end only, or the
    start after the end. *)
Definition malformed (date_range : list Z) : Prop :=
  List.length date_range = 1%nat \/
  exists start_date end_date,
    date_range = [start_date; end_date] /\ end_date < start_date.

(** ** Numbers produced by a division

    pandas divides columns element-wise and never raises: a zero divisor
    gives an infinity, or NaN when the dividend is zero too. *)

Inductive fnum : Type :=
| Finite (q : Q)
| PosInf
| NegInf
| NaN.

Definition fdiv (a b : Q) : fnum :=
  if Qeq_bool b 0 then
    if Qeq_bool a 0 then NaN
    else if Qle_bool 0 a then PosInf else NegInf
  else Finite (a / b).

Definition is_nan (x : fnum) : bool :=
  match x with NaN => true | _ => false end.

(** [x <= y] on column values; every comparison with NaN is false. *)
Definition fle (x y : fnum) : bool :=
  match x, y with
  | NaN, _ | _, NaN => false
  | NegInf, _ => true
  | _, PosInf => true
  | Finite a, Finite b => Qle_bool a b
  | _, _ => false
  end.

(** Two values occupy the same rank: both undefined, or each [<=] the
    other. *)
Definition tied (x y : fnum) : bool :=
  (is_nan x && is_nan y) || (fle x y && fle y x).

(** ** Column reductions *)

Definition sumQ (l : list Q) : Q := fold_right Qplus 0%Q l.
Definition sumZ (l : list Z) : Z := fold_right Z.add 0 l.

(** ['mean']: the sum over the count. *)
Definition mean (l : list Q) : fnum :=
  fdiv (sumQ l) (inject_Z (Z.of_nat (List.length l))).

(** ['nunique']: the number of distinct values. *)
Definition nunique (l : list Z) : Z := Z.of_nat (List.length (nodup Z.eq_dec l)).

(** ** groupby

    Groups are kept in ascending key order (pandas' [sort=True]); the
    rows of a group stay in frame order. *)

Section GroupBy.
Context {K : Type} (cmp : K -> K -> comparison) (key : TransactionRecord -> K).

Fixpoint insert_group (r : TransactionRecord)
         (gs : list (K * list TransactionRecord)) : list (K * list TransactionRecord) :=
  match gs with
  | [] => [(key r, [r])]
  | (k, rs) :: gs' =>
      match cmp (key r) k with
      | Lt => (key r, [r]) :: gs
      | Eq => (k, rs ++ [r]) :: gs'
      | Gt => (k, rs) :: insert_group r gs'
      end
  end.

Definition groupby (df : DataFrame) : list (K * list TransactionRecord) :=
  fold_left (fun gs r => insert_group r gs) df [].
End GroupBy.

(** ** SKU aggregator: [calculate_sku_metrics] (lines 132-149) *)

Definition group_key : Type := string * string * string.

Definition key_of (r : TransactionRecord) : group_key :=
  (sku r, product_name r, category r).

(** Lexicographic order on the three grouping columns. *)
Definition key_compare (a b : group_key) : comparison :=
  let '(s1, p1, c1) := a in
  let '(s2, p2, c2) := b in
  match String_as_OT.compare s1 s2 with
  | Eq => match String_as_OT.compare p1 p2 with
          | Eq => String_as_OT.compare c1 c2
          | c => c
          end
  | c => c
  end.

Record SkuMetrics : Type := mkMetrics {
  m_sku              : string;
  m_product_name     : string;
  m_category         : string;
  total_quantity     : Z;
  m_total_revenue    : Q;
  avg_unit_price     : fnum;
  days_with_sales    : Z;
  avg_daily_quantity : fnum;
  avg_order_value    : fnum
}.

Definition metrics_key (m : SkuMetrics) : group_key :=
  (m_sku m, m_product_name m, m_category m).

(** One output row: the [agg] of a group followed by the two derived
    columns. *)
Definition aggregate (g : group_key * list TransactionRecord) : SkuMetrics :=
  let '((s, p, c), rs) := g in
  let quantity := sumZ (map quantity_sold rs) in
  let revenue := sumQ (map total_revenue rs) in
  let days := nunique (map date rs) in
  {| m_sku := s;
     m_product_name := p;
     m_category := c;
     total_quantity := quantity;
     m_total_revenue := revenue;
     avg_unit_price := mean (map unit_price rs);
     days_with_sales := days;
     avg_daily_quantity := fdiv (inject_Z quantity) (inject_Z days);
     avg_order_value := fdiv revenue (inject_Z quantity) |}.

Definition calculate_sku_metrics (df : DataFrame) : list SkuMetrics :=
  map aggregate (groupby key_compare key_of df).

(** The distinct [sku] values of a frame, and its distinct key
    triples. *)
Definition distinct_skus (df : DataFrame) : list string :=
  nodup string_dec (map sku df).

Definition key_dec (a b : group_key) : {a = b} + {a <> b}.
Proof. repeat decide equality. Defined.

Definition distinct_keys (df : DataFrame) : list group_key :=
  nodup key_dec (map key_of df).

(** ** Ranker (lines 153-159 and 180) *)

Inductive Metric : Type := TotalRevenue | QuantitySold | AverageOrderValue.

(** The column each choice of the select box sorts by. *)
Definition metric_column (metric : Metric) (m : SkuMetrics) : fnum :=
  match metric with
  | TotalRevenue => Finite (m_total_revenue m)
  | QuantitySold => Finite (inject_Z (total_quantity m))
  | AverageOrderValue => avg_order_value m
  end.

(** The sort the frame library delegates to: it sees the rows only
    through their key.  [sort_values] is called with the default
    [kind], a sort that is not promised to be stable, so the ranker is
    parametric in it. *)
Definition Sorter : Type := forall A : Type, (A -> fnum) -> list A -> list A.

Definition ascending {A : Type} (k : A -> fnum) (a b : A) : Prop :=
  fle (k a) (k b) = true.

Definition descending {A : Type} (k : A -> fnum) (a b : A) : Prop :=
  fle (k b) (k a) = true.

(** What any such sort delivers on keys without NaN. *)
Definition sorter_ok (srt : Sorter) : Prop :=
  forall (A : Type) (k : A -> fnum) (l : list A),
    Forall (fun a => is_nan (k a) = false) l ->
    Permutation (srt A k l) l /\ StronglySorted (ascending k) (srt A k l).

(** [sort_values(col, ascending=False)]: the rows with a defined key
    are reversed, sorted upwards and reversed again; the rows with a
    NaN key follow, in frame order. *)
Definition sort_values_desc (srt : Sorter) {A : Type} (k : A -> fnum) (df : list A) : list A :=
  let non_nans := filter (fun r => negb (is_nan (k r))) df in
  let nans := filter (fun r => is_nan (k r)) df in
  rev (srt A k (rev non_nans)) ++ nans.

Definition sku_metrics_sorted (srt : Sorter) (metric : Metric)
           (sku_metrics : list SkuMetrics) : list SkuMetrics :=
  match metric with
  | TotalRevenue => sort_values_desc srt (metric_column TotalRevenue) sku_metrics
  | QuantitySold => sort_values_desc srt (metric_column QuantitySold) sku_metrics
  | AverageOrderValue => sort_values_desc srt (metric_column AverageOrderValue) sku_metrics
  end.

(** [head(n)]: the first [n] rows; a negative [n] drops the last [-n]. *)
Definition head {A : Type} (n : Z) (l : list A) : list A :=
  if 0 <=? n then firstn (Z.to_nat n) l
  else firstn (List.length l - Z.to_nat (- n)) l.

Definition top_skus (srt : Sorter) (metric : Metric) (top_n : Z)
           (df : DataFrame) : list SkuMetrics :=
  head top_n (sku_metrics_sorted srt metric (calculate_sku_metrics df)).

(** Order in which a ranking lists its rows: a better rank first,
    undefined keys last. *)
Definition ranks_before (x y : fnum) : bool :=
  is_nan y || fle y x.

(** *** A stable sort

    An insertion sort that places a row before the rows of equal key
    already there; it meets the contract above and serves where a
    concrete sort is needed. *)

Fixpoint insert_before {A : Type} (k : A -> fnum) (x : A) (l : list A) : list A :=
  match l with
  | [] => [x]
  | y :: l' => if fle (k x) (k y) then x :: l else y :: insert_before k x l'
  end.

Definition stable_sort : Sorter :=
  fun A k l => fold_right (insert_before k) [] l.

(** ** Summary cards (lines 162-174) *)

(** The page-wide average order value; this division is guarded. *)
Definition overall_aov (df : DataFrame) : fnum :=
  let revenue := sumQ (map total_revenue df) in
  let quantity := sumZ (map quantity_sold df) in
  if 0 <? quantity then fdiv revenue (inject_Z quantity) else Finite 0.

(** ** Category and daily aggregators (lines 217-237) *)

Definition sum_group {K : Type} (g : K * list TransactionRecord) : K * Q * Z :=
  let '(k, rs) := g in
  (k, sumQ (map total_revenue rs), sumZ (map quantity_sold rs)).

Definition category_metrics (df : DataFrame) : list (string * Q * Z) :=
  map sum_group (groupby String_as_OT.compare category df).

Definition daily_sales (df : DataFrame) : list (Z * Q * Z) :=
  map sum_group (groupby Z.compare date df).

(** ** Exceptions *)

Inductive exn : Type :=
| KeyError (key : string)
| ValueError (msg : string).

(** [str(e)]: a [KeyError] prints the [repr] of its key. *)
Definition exn_message (e : exn) : string :=
  match e with
  | KeyError key => "'" ++ key ++ "'"
  | ValueError msg => msg
  end.

Inductive result (A : Type) : Type :=
| Ok (a : A)
| Raise (e : exn).
Arguments Ok {A} a.
Arguments Raise {A} e.

Definition bind {A B : Type} (r : result A) (f : A -> result B) : result B :=
  match r with
  | Ok a => f a
  | Raise e => Raise e
  end.

Notation "x <- r ;; k" := (bind r (fun x => k))
  (at level 61, r at next level, right associativity).

Fixpoint map_result {A B : Type} (f : A -> result B) (l : list A) : result (list B) :=
  match l with
  | [] => Ok []
  | a :: l' => b <- f a ;; bs <- map_result f l' ;; Ok (b :: bs)
  end.

(** ** The uploaded file (lines 92-106)

    An uploaded table may lack any of its columns.  A column that is
    there holds text for the date and the three labels, integers for
    the quantity and decimals for the price. *)

Record CsvFrame : Type := mkCsv {
  csv_date          : option (list string);
  csv_sku           : option (list string);
  csv_product_name  : option (list string);
  csv_category      : option (list string);
  csv_quantity_sold : option (list Z);
  csv_unit_price    : option (list Q)
}.

(** The frame after lines 100-102: [date] converted and
    [total_revenue] added; the label columns are as uploaded. *)
Record LoadedFrame : Type := mkLoaded {
  ld_date          : list Z;
  ld_sku           : option (list string);
  ld_product_name  : option (list string);
  ld_category      : option (list string);
  ld_quantity_sold : list Z;
  ld_unit_price    : list Q;
  ld_total_revenue : list Q
}.

(** [df[name]]: a missing column raises [KeyError(name)]. *)
Definition getitem {A : Type} (name : string) (col : option A) : result A :=
  match col with
  | Some c => Ok c
  | None => Raise (KeyError name)
  end.

(** [quantity_sold * unit_price], row by row. *)
Fixpoint col_mul (qs : list Z) (us : list Q) : list Q :=
  match qs, us with
  | q :: qs', u :: us' => (inject_Z q * u)%Q :: col_mul qs' us'
  | _, _ => []
  end.

Fixpoint zip_rows (ds : list Z) (ss ps cs : list string) (qs : list Z)
         (us ts : list Q) : DataFrame :=
  match ds, ss, ps, cs, qs, us, ts with
  | d :: ds', s :: ss', p :: ps', c :: cs', q :: qs', u :: us', t :: ts' =>
      mkRecord d s p c q u t :: zip_rows ds' ss' ps' cs' qs' us' ts'
  | _, _, _, _, _, _, _ => []
  end.

(** The rows the aggregator sees; [groupby] looks its three keys up in
    order. *)
Definition frame_rows (ld : LoadedFrame) : result DataFrame :=
  ss <- getitem "sku" (ld_sku ld) ;;
  ps <- getitem "product_name" (ld_product_name ld) ;;
  cs <- getitem "category" (ld_category ld) ;;
  Ok (zip_rows (ld_date ld) ss ps cs (ld_quantity_sold ld)
               (ld_unit_price ld) (ld_total_revenue ld)).

(** ** The page *)

Inductive element : Type :=
| Static (label : string)
| DateInput (min_value max_value : option Z)
| MetricCard (label : string) (value : fnum)
| Table (rows : list SkuMetrics)
| BarChart (column : string) (rows : list SkuMetrics)
| PieChart (slices : list (string * Q * Z))
| LineChart (points : list (Z * Q * Z)).

(** An element that displays something computed from the data. *)
Definition shows_data (e : element) : bool :=
  match e with Static _ => false | _ => true end.

Inductive data_source : Type :=
| UseSample
| UploadCsv (uploaded_file : option CsvFrame).

Definition col_min (l : list Z) : option Z :=
  match l with [] => None | x :: l' => Some (fold_left Z.min l' x) end.

Definition col_max (l : list Z) : option Z :=
  match l with [] => None | x :: l' => Some (fold_left Z.max l' x) end.

(** What is on the page before the data is read (lines 16-97). *)
Definition page_prelude (src : data_source) : list element :=
  [Static "title"; Static "description"; Static "Analysis Controls";
   Static "Data Source"; Static "Choose data source:"]
  ++ match src with
     | UploadCsv _ => [Static "Upload your sales data CSV"]
     | UseSample => []
     end.

Section Page.
(** The date parser of the frame library and the sort behind
    [sort_values]. *)
Variable parse_datetime : string -> result Z.
Variable srt : Sorter.

(** [pd.to_datetime] on a text column. *)
Definition to_datetime (col : list string) : result (list Z) :=
  map_result parse_datetime col.

(** Lines 100-102. *)
Definition handle_upload (df : CsvFrame) : result LoadedFrame :=
  raw <- getitem "date" (csv_date df) ;;
  dates <- to_datetime raw ;;
  qs <- getitem "quantity_sold" (csv_quantity_sold df) ;;
  us <- getitem "unit_price" (csv_unit_price df) ;;
  Ok {| ld_date := dates;
        ld_sku := csv_sku df;
        ld_product_name := csv_product_name df;
        ld_category := csv_category df;
        ld_quantity_sold := qs;
        ld_unit_price := us;
        ld_total_revenue := col_mul qs us |}.

(** Lines 161-246, on the filtered rows. *)
Definition dashboard (metric : Metric) (top_n : Z) (df : DataFrame) : list element :=
  let top := top_skus srt metric top_n df in
  [MetricCard "Total Revenue" (Finite (sumQ (map total_revenue df)));
   MetricCard "Total Units Sold" (Finite (inject_Z (sumZ (map quantity_sold df))));
   MetricCard "Overall AOV" (overall_aov df);
   Static "Top SKUs";
   Table top;
   BarChart "total_revenue" top;
   BarChart "total_quantity" top;
   Static "Performance by Category";
   PieChart (category_metrics df);
   Static "Sales Trends Over Time";
   LineChart (daily_sales df)].

(** Lines 108-246 once the frame is loaded: the controls, then the
    dashboard unless [groupby] misses a key column. *)
Definition page_body (dates : list Z) (rows : result DataFrame)
           (metric : Metric) (top_n : Z) (date_range : list Z)
  : list element * option exn :=
  let controls :=
    [Static "Analysis Parameters"; Static "Top N SKUs to analyze";
     Static "Primary Metric"; DateInput (option_map dt_date (col_min dates))
                                        (option_map dt_date (col_max dates))] in
  match rows with
  | Raise e => (controls, Some e)
  | Ok df => (controls ++ dashboard metric top_n (df_filtered df date_range), None)
  end.

(** The page from its first line through the trend chart.  [sample] is
    the frame [load_data] returns. *)
Definition page (sample : DataFrame) (src : data_source) (metric : Metric)
           (top_n : Z) (date_range : list Z) : list element * option exn :=
  let before := page_prelude src in
  match src with
  | UploadCsv (Some uploaded_file) =>
      match handle_upload uploaded_file with
      | Raise e => (before, Some e)
      | Ok ld =>
          let '(out, e) := page_body (ld_date ld) (frame_rows ld) metric top_n date_range in
          (before ++ out, e)
      end
  | _ =>
      let '(out, e) := page_body (map date sample) (Ok sample) metric top_n date_range in
      (before ++ out, e)
  end.
End Page.

(** ** Invariant of a group list

    Keys strictly ascending; every group non-empty and made of rows
    with the group's key. *)

Definition keys_ascending {K : Type} (cmp : K -> K -> comparison)
           (gs : list (K * list TransactionRecord)) : Prop :=
  StronglySorted (fun g h => cmp (fst g) (fst h) = Lt) gs.

Definition groups_sound {K : Type} (key : TransactionRecord -> K)
           (gs : list (K * list TransactionRecord)) : Prop :=
  Forall (fun g => snd g <> [] /\ Forall (fun r => key r = fst g) (snd g)) gs.

Definition key_lt (a b : group_key) : Prop := key_compare a b = Lt.

(** A frame in which the product name and the category are determined
    by the sku, as the data model requires. *)
Definition consistent (df : DataFrame) : Prop :=
  forall r1 r2, In r1 df -> In r2 df -> sku r1 = sku r2 ->
                product_name r1 = product_name r2 /\ category r1 = category r2.

(** Tied rows are listed in ascending [sku] order. *)
Definition ties_by_sku (metric : Metric) (out : list SkuMetrics) : Prop :=
  StronglySorted
    (fun a b => tied (metric_column metric a) (metric_column metric b) = true ->
                String_as_OT.compare (m_sku a) (m_sku b) <> Gt) out.

(** Rows are listed from the best rank down, undefined keys last. *)
Definition ranked (metric : Metric) (out : list SkuMetrics) : Prop :=
  StronglySorted
    (fun a b => ranks_before (metric_column metric a) (metric_column metric b) = true) out.

(** The total of the per-group revenue sums. *)
Definition groups_revenue {K : Type} (gs : list (K * list TransactionRecord)) : Q :=
  sumQ (map (fun g => sumQ (map total_revenue (snd g))) gs).

(** ** Sample data (lines 22-75)

    The random draws are inputs: [quantity_draw d i] is the integer
    quantity computed for day [d] and catalogue entry [i],
    [price_draw d i] the price before rounding, [round2] the rounding
    to two decimals. *)

Definition skus : list string :=
  ["SKU-001"; "SKU-002"; "SKU-003"; "SKU-004"; "SKU-005";
   "SKU-006"; "SKU-007"; "SKU-008"; "SKU-009"; "SKU-010";
   "SKU-011"; "SKU-012"; "SKU-013"; "SKU-014"; "SKU-015"]%string.

Definition product_names : list string :=
  ["Premium Coffee Beans"; "Organic Tea Blend"; "Artisan Chocolate";
   "Natural Honey"; "Gourmet Crackers"; "Specialty Jam";
   "Craft Beer Pack"; "Wine Selection"; "Cheese Platter";
   "Nuts & Seeds Mix"; "Dried Fruits"; "Herbal Soap";
   "Essential Oil"; "Handmade Candle"; "Ceramic Mug"]%string.

Definition categories : list string :=
  ["Beverages"; "Beverages"; "Confectionery"; "Pantry"; "Snacks";
   "Pantry"; "Beverages"; "Beverages"; "Dairy"; "Snacks";
   "Snacks"; "Personal Care"; "Personal Care"; "Home"; "Home"]%string.

(** [enumerate(skus)]. *)
Definition enumerate {A : Type} (l : list A) : list (nat * A) :=
  combine (seq 0 (List.length l)) l.

(** The (sku, product_name, category) triples the generator can emit. *)
Definition catalogue : list group_key :=
  map (fun '(i, s) => (s, nth i product_names EmptyString, nth i categories EmptyString))
      (enumerate skus).

(** [pd.date_range(start, start + 180 days, freq='D')]. *)
Definition sample_dates (start_date : Z) : list Z :=
  map (fun j => start_date + Z.of_nat j * ns_per_day) (seq 0 181).

Section Generator.
Variable quantity_draw : Z -> nat -> Z.
Variable price_draw : Z -> nat -> Q.
Variable round2 : Q -> Q.

(** The inner loop for one day: a row for each catalogue entry whose
    quantity is positive. *)
Definition day_rows (d : Z) : DataFrame :=
  flat_map
    (fun '(i, s) =>
       let quantity := quantity_draw d i in
       let price := price_draw d i in
       if 0 <? quantity then
         [{| date := d;
             sku := s;
             product_name := nth i product_names EmptyString;
             category := nth i categories EmptyString;
             quantity_sold := quantity;
             unit_price := round2 price;
             total_revenue := round2 (inject_Z quantity * price) |}]
       else [])
    (enumerate skus).

Definition generate_sample_data (start_date : Z) : DataFrame :=
  flat_map day_rows (sample_dates start_date).
End Generator.

(** ** Predicates used in the statements below *)

(** The rows of a frame that carry a given key, in frame order. *)
Definition rows_of_key (k : group_key) (df : DataFrame) : DataFrame :=
  filter (fun r => if key_dec (key_of r) k then true else false) df.

(** ** Frames with blank cells

    [read_csv] leaves NaN where a cell of the file is blank and
    [to_datetime] turns a blank date into NaT, so a frame that comes
    from an upload can miss any cell.  [Csv] follows the pipeline on
    such frames.  The value columns hold numbers of a type [num]
    (64-bit floats in the script); the reductions ['sum'] and ['mean']
    and the two divisions of the aggregator are those of the frame
    library and are taken as they come: the model applies them to the
    cells that are present and says nothing of how they round. *)

Module Csv.

Record Row (num : Type) : Type := mkRow {
  date          : option Z;        (* None: NaT *)
  sku           : option string;   (* None: NaN *)
  product_name  : option string;
  category      : option string;
  quantity_sold : option Z;
  unit_price    : option num;
  total_revenue : option num
}.
Arguments mkRow {num} _ _ _ _ _ _ _.
Arguments date {num} _.
Arguments sku {num} _.
Arguments product_name {num} _.
Arguments category {num} _.
Arguments quantity_sold {num} _.
Arguments unit_price {num} _.
Arguments total_revenue {num} _.

Record SkuMetrics (num ratio : Type) : Type := mkMetrics {
  m_sku              : string;
  m_product_name     : string;
  m_category         : string;
  total_quantity     : Z;
  m_total_revenue    : num;
  avg_unit_price     : ratio;
  days_with_sales    : Z;
  avg_daily_quantity : ratio;
  avg_order_value    : ratio
}.
Arguments mkMetrics {num ratio} _ _ _ _ _ _ _ _ _.
Arguments m_sku {num ratio} _.
Arguments m_product_name {num ratio} _.
Arguments m_category {num ratio} _.
Arguments total_quantity {num ratio} _.
Arguments m_total_revenue {num ratio} _.
Arguments avg_unit_price {num ratio} _.
Arguments days_with_sales {num ratio} _.
Arguments avg_daily_quantity {num ratio} _.
Arguments avg_order_value {num ratio} _.

(** The cells of a column that are not blank ([skipna]). *)
Definition present {A : Type} (col : list (option A)) : list A :=
  flat_map (fun c => match c with Some x => [x] | None => [] end) col.

Definition is_some {A : Type} (c : option A) : bool :=
  match c with Some _ => true | None => false end.

(** Comparison of the day column with a scalar; a NaT entry compares
    false. *)
Definition day_ge (col : list (option Z)) (d : Z) : list bool :=
  map (fun x => match x with Some v => d <=? v | None => false end) col.
Definition day_le (col : list (option Z)) (d : Z) : list bool :=
  map (fun x => match x with Some v => v <=? d | None => false end) col.

Section Frame.
Context {num ratio : Type}.
Variable sum : list num -> num.
Variable mean : list num -> ratio.
Variable per_unit : num -> Z -> ratio.   (* total_revenue / total_quantity *)
Variable per_day : Z -> Z -> ratio.      (* total_quantity / days_with_sales *)

(** Lines 124-129. *)
Definition df_filtered (df : list (Row num)) (date_range : list Z) : list (Row num) :=
  match date_range with
  | [start_date; end_date] =>
      let days := map (fun r => option_map dt_date (date r)) df in
      select df (mask_and (day_ge days start_date) (day_le days end_date))
  | _ => df
  end.

(** The pair of days the date picker starts from: [min] and [max] skip
    NaT.  A frame without any date gives the picker no pair. *)
Definition default_range (df : list (Row num)) : list Z :=
  match col_min (present (map date df)), col_max (present (map date df)) with
  | Some lo, Some hi => [dt_date lo; dt_date hi]
  | _, _ => []
  end.

(** [groupby] with its default [dropna=True]: a row whose key has a
    blank cell joins no group. *)
Section GroupBy.
Context {K : Type} (cmp : K -> K -> comparison) (key : Row num -> option K).

Fixpoint insert_group (k : K) (r : Row num) (gs : list (K * list (Row num)))
  : list (K * list (Row num)) :=
  match gs with
  | [] => [(k, [r])]
  | (k0, rs) :: gs' =>
      match cmp k k0 with
      | Lt => (k, [r]) :: gs
      | Eq => (k0, rs ++ [r]) :: gs'
      | Gt => (k0, rs) :: insert_group k r gs'
      end
  end.

Definition add_row (gs : list (K * list (Row num))) (r : Row num)
  : list (K * list (Row num)) :=
  match key r with
  | Some k => insert_group k r gs
  | None => gs
  end.

Definition groupby (df : list (Row num)) : list (K * list (Row num)) :=
  fold_left add_row df [].
End GroupBy.

Definition key_of (r : Row num) : option group_key :=
  match sku r, product_name r, category r with
  | Some s, Some p, Some c => Some (s, p, c)
  | _, _, _ => None
  end.

Definition metrics_key (m : SkuMetrics num ratio) : group_key :=
  (m_sku m, m_product_name m, m_category m).

(** Lines 135-147 for one group: every reduction skips blank cells. *)
Definition aggregate (g : group_key * list (Row num)) : SkuMetrics num ratio :=
  let '((s, p, c), rs) := g in
  let quantity := sumZ (present (map quantity_sold rs)) in
  let revenue := sum (present (map total_revenue rs)) in
  let days := nunique (present (map date rs)) in
  {| m_sku := s;
     m_product_name := p;
     m_category := c;
     total_quantity := quantity;
     m_total_revenue := revenue;
     avg_unit_price := mean (present (map unit_price rs));
     days_with_sales := days;
     avg_daily_quantity := per_day quantity days;
     avg_order_value := per_unit revenue quantity |}.

Definition calculate_sku_metrics (df : list (Row num)) : list (SkuMetrics num ratio) :=
  map aggregate (groupby key_compare key_of df).

(** Lines 219-222 and 234-237. *)
Definition sum_group {K : Type} (g : K * list (Row num)) : K * num * Z :=
  let '(k, rs) := g in
  (k, sum (present (map total_revenue rs)), sumZ (present (map quantity_sold rs))).

Definition category_metrics (df : list (Row num)) : list (string * num * Z) :=
  map sum_group (groupby String_as_OT.compare category df).

Definition daily_sales (df : list (Row num)) : list (Z * num * Z) :=
  map sum_group (groupby Z.compare date df).
End Frame.

End Csv.

(** *** Two number systems

    Exact decimals, with the divisions of the first part of this file,
    and 64-bit floats. *)

Definition exact_metrics (df : list (Csv.Row Q)) : list (Csv.SkuMetrics Q fnum) :=
  Csv.calculate_sku_metrics sumQ mean
    (fun revenue quantity => fdiv revenue (inject_Z quantity))
    (fun quantity days => fdiv (inject_Z quantity) (inject_Z days)) df.

(** int64 to float64. *)
Definition float_of_Z (z : Z) : PrimFloat.float :=
  if z <? 0 then PrimFloat.opp (PrimFloat.of_uint63 (Uint63.of_Z (- z)))
  else PrimFloat.of_uint63 (Uint63.of_Z z).

(** The float nearest to [n / d]; [decimal 1 10] is the float written
    0.1. *)
Definition decimal (n d : Z) : PrimFloat.float :=
  PrimFloat.div (float_of_Z n) (float_of_Z d).

(** Adding up from the left, which is what both reductions of the
    frame library do on a handful of cells. *)
Definition float_sum (l : list PrimFloat.float) : PrimFloat.float :=
  fold_left PrimFloat.add l (float_of_Z 0).

Definition float_mean (l : list PrimFloat.float) : PrimFloat.float :=
  PrimFloat.div (float_sum l) (float_of_Z (Z.of_nat (List.length l))).

Definition float_metrics (df : list (Csv.Row PrimFloat.float))
  : list (Csv.SkuMetrics PrimFloat.float PrimFloat.float) :=
  Csv.calculate_sku_metrics float_sum float_mean
    (fun revenue quantity => PrimFloat.div revenue (float_of_Z quantity))
    (fun quantity days => PrimFloat.div (float_of_Z quantity) (float_of_Z days)) df.

(** A frame without blank cells, as a frame that could have some. *)
Definition lift (r : TransactionRecord) : Csv.Row Q :=
  Csv.mkRow (Some (date r)) (Some (sku r)) (Some (product_name r)) (Some (category r))
            (Some (quantity_sold r)) (Some (unit_price r)) (Some (total_revenue r)).

Definition lower (m : Csv.SkuMetrics Q fnum) : SkuMetrics :=
  {| m_sku := Csv.m_sku m;
     m_product_name := Csv.m_product_name m;
     m_category := Csv.m_category m;
     total_quantity := Csv.total_quantity m;
     m_total_revenue := Csv.m_total_revenue m;
     avg_unit_price := Csv.avg_unit_price m;
     days_with_sales := Csv.days_with_sales m;
     avg_daily_quantity := Csv.avg_daily_quantity m;
     avg_order_value := Csv.avg_order_value m |}.

(** The rows that [groupby] on the three key columns does not drop. *)
Definition keyed {num : Type} (df : list (Csv.Row num)) : list (Csv.Row num) :=
  filter (fun r => Csv.is_some (Csv.key_of r)) df.

(** The rows that carry a given key, in frame order. *)
Definition rows_keyed {num : Type} (k : group_key) (df : list (Csv.Row num))
  : list (Csv.Row num) :=
  filter (fun r => match Csv.key_of r with
                   | Some k' => if key_dec k' k then true else false
                   | None => false
                   end) df.



(** The rows whose day lies in the closed interval; a row without a
    date is not among them. *)
Definition dated_within {num : Type} (start_date end_date : Z) (df : list (Csv.Row num))
  : list (Csv.Row num) :=
  filter (fun r => match Csv.date r with
                   | Some t => (start_date <=? dt_date t) && (dt_date t <=? end_date)
                   | None => false
                   end) df.

(** * Properties *)

(** ** Facts about masks *)

Lemma select_mask_and_map {A : Type} (f g : A -> bool) (df : list A) :
  select df (mask_and (map f df) (map g df)) = filter (fun r => f r && g r) df.
Proof.
  induction df as [|r df IH]; simpl; [reflexivity|].
  rewrite IH. reflexivity.
Qed.

Lemma df_filtered_pair (df : DataFrame) (s e : Z) :
  df_filtered df [s; e] = rows_within s e df.
Proof.
  unfold df_filtered, rows_within, col_ge, col_le.
  rewrite !map_map.
  apply (select_mask_and_map (fun r => s <=? dt_date (date r))
                             (fun r => dt_date (date r) <=? e)).
Qed.

Lemma filter_idem {A : Type} (p : A -> bool) (l : list A) :
  filter p (filter p l) = filter p l.
Proof.
  induction l as [|x l IH]; simpl; [reflexivity|].
  destruct (p x) eqn:E; simpl; rewrite ?E, IH; reflexivity.
Qed.

Lemma filter_none {A : Type} (p : A -> bool) (l : list A) :
  (forall x, In x l -> p x = false) -> filter p l = [].
Proof.
  induction l as [|x l IH]; simpl; intros H; [reflexivity|].
  rewrite (H x (or_introl eq_refl)). apply IH. intros y Hy. apply H. now right.
Qed.

Lemma in_range_spec (s e : Z) (r : TransactionRecord) :
  in_range s e r = true <-> s <= dt_date (date r) <= e.
Proof.
  unfold in_range. rewrite andb_true_iff, !Z.leb_le. tauto.
Qed.

(** ** Date-range filter *)

(** C7: on a pair of days the filter returns exactly the rows whose day
    lies between the two, both ends included, in frame order. *)
Theorem date_filter_inclusive (df : DataFrame) (start_date end_date : Z) :
  df_filtered df [start_date; end_date] = rows_within start_date end_date df /\
  (forall r, In r (df_filtered df [start_date; end_date]) <->
             In r df /\ start_date <= dt_date (date r) <= end_date).
Proof.
  split; [apply df_filtered_pair|].
  intros r. rewrite df_filtered_pair. unfold rows_within.
  rewrite filter_In, in_range_spec. tauto.
Qed.

(** C9: filtering an already filtered frame by the same range changes
    nothing. *)
Theorem date_filter_idempotent (df : DataFrame) (date_range : list Z) :
  df_filtered (df_filtered df date_range) date_range = df_filtered df date_range.
Proof.
  destruct date_range as [|s [|e [|x rest]]]; try reflexivity.
  rewrite !df_filtered_pair. apply filter_idem.
Qed.

(** C5, as stated, fails: with the start after the end the filter
    returns no row at all, not the full frame. *)
Lemma reversed_range_not_full :
  ~ (forall (df : DataFrame) (date_range : list Z),
        malformed date_range -> df_filtered df date_range = df).
Proof.
  intros H.
  specialize (H [mkRecord (5 * ns_per_day) "A" "Tea" "Beverages" 1 (2#1) (2#1)] [10; 1]).
  assert (Hm : malformed [10; 1]).
  { right. exists 10, 1. split; [reflexivity | lia]. }
  specialize (H Hm). vm_compute in H. discriminate H.
Qed.

(** C5, amended: a range that is not a pair of days leaves the frame
    as it is; a pair whose start is after its end selects no row. *)
Theorem malformed_range_behaviour (df : DataFrame) (date_range : list Z) :
  (List.length date_range <> 2%nat -> df_filtered df date_range = df) /\
  (forall start_date end_date,
      date_range = [start_date; end_date] -> end_date < start_date ->
      df_filtered df date_range = []).
Proof.
  split.
  - destruct date_range as [|s [|e [|x rest]]]; simpl; intros H;
      try reflexivity; exfalso; apply H; reflexivity.
  - intros s e -> Hlt. rewrite df_filtered_pair. apply filter_none.
    intros r _. apply not_true_is_false. rewrite in_range_spec. lia.
Qed.

Lemma malformed_range_behaviour_witness :
  df_filtered [mkRecord 0 "A" "Tea" "Beverages" 1 (2#1) (2#1)] [3] =
    [mkRecord 0 "A" "Tea" "Beverages" 1 (2#1) (2#1)] /\
  df_filtered [mkRecord 0 "A" "Tea" "Beverages" 1 (2#1) (2#1)] [3; 1] = [].
Proof.
  split.
  - apply (proj1 (malformed_range_behaviour _ [3])). simpl. lia.
  - apply (proj2 (malformed_range_behaviour _ [3; 1]) 3 1); [reflexivity | lia].
Defined.

(** ** Sums *)

Lemma sumQ_app (l1 l2 : list Q) : (sumQ (l1 ++ l2) == sumQ l1 + sumQ l2)%Q.
Proof.
  induction l1 as [|x l1 IH]; simpl.
  - ring.
  - rewrite IH. ring.
Qed.

(** ** groupby *)

Section GroupByFacts.
Context {K : Type} (cmp : K -> K -> comparison) (key : TransactionRecord -> K).

(** Inserting a row adds its revenue to the grand total, whatever the
    order on keys. *)
Lemma insert_group_revenue (r : TransactionRecord) gs :
  (groups_revenue (insert_group cmp key r gs) == total_revenue r + groups_revenue gs)%Q.
Proof.
  unfold groups_revenue.
  induction gs as [|[k rs] gs IH]; simpl.
  - ring.
  - destruct (cmp (key r) k); simpl.
    + rewrite map_app, sumQ_app. simpl. ring.
    + ring.
    + rewrite IH. ring.
Qed.

Lemma fold_insert_revenue (df : DataFrame) gs :
  (groups_revenue (fold_left (fun gs r => insert_group cmp key r gs) df gs)
   == sumQ (map total_revenue df) + groups_revenue gs)%Q.
Proof.
  revert gs. induction df as [|r df IH]; intros gs; simpl.
  - ring.
  - rewrite IH, insert_group_revenue. ring.
Qed.

Lemma groupby_revenue (df : DataFrame) :
  (groups_revenue (groupby cmp key df) == sumQ (map total_revenue df))%Q.
Proof.
  unfold groupby. rewrite fold_insert_revenue. unfold groups_revenue. simpl. ring.
Qed.

(** The keys of the groups are the keys of the rows. *)
Lemma insert_group_keys (r : TransactionRecord) gs (k : K) :
  (forall a b, cmp a b = Eq -> a = b) ->
  In k (map fst (insert_group cmp key r gs)) <-> k = key r \/ In k (map fst gs).
Proof.
  intros cmp_eq.
  induction gs as [|[k0 rs] gs IH]; simpl.
  - intuition.
  - destruct (cmp (key r) k0) eqn:E; simpl.
    + apply cmp_eq in E. subst k0. intuition.
    + intuition.
    + rewrite IH. intuition.
Qed.

Lemma groupby_keys (df : DataFrame) (k : K) :
  (forall a b, cmp a b = Eq -> a = b) ->
  In k (map fst (groupby cmp key df)) <-> In k (map key df).
Proof.
  intros cmp_eq. unfold groupby.
  assert (G : forall gs,
             In k (map fst (fold_left (fun gs r => insert_group cmp key r gs) df gs))
             <-> In k (map key df) \/ In k (map fst gs)).
  { induction df as [|r df IH]; intros gs; simpl.
    - intuition.
    - rewrite IH, insert_group_keys by exact cmp_eq. intuition. }
  rewrite G. simpl. intuition.
Qed.

(** Every group holds at least one row, and only rows of its key. *)
Lemma insert_group_sound (r : TransactionRecord) gs :
  (forall a b, cmp a b = Eq -> a = b) ->
  groups_sound key gs -> groups_sound key (insert_group cmp key r gs).
Proof.
  intros cmp_eq. unfold groups_sound.
  induction gs as [|[k rs] gs IH]; simpl; intros H.
  - constructor; [|constructor]. simpl. split; [discriminate|]. repeat constructor.
  - inversion H as [|g gs' [Hne Hk] Hrest]; subst. simpl in *.
    destruct (cmp (key r) k) eqn:E.
    + apply cmp_eq in E. constructor; [|exact Hrest]. simpl. split.
      * destruct rs; discriminate.
      * apply Forall_app. split; [exact Hk|]. repeat constructor. exact E.
    + constructor; [|exact H]. simpl. split; [discriminate|]. repeat constructor.
    + constructor; [|apply IH; exact Hrest]. simpl. split; assumption.
Qed.

Lemma groupby_sound (df : DataFrame) :
  (forall a b, cmp a b = Eq -> a = b) ->
  groups_sound key (groupby cmp key df).
Proof.
  intros cmp_eq. unfold groupby.
  assert (G : forall gs, groups_sound key gs ->
             groups_sound key (fold_left (fun gs r => insert_group cmp key r gs) df gs)).
  { induction df as [|r df IH]; intros gs Hgs; simpl; [exact Hgs|].
    apply IH. apply insert_group_sound; assumption. }
  apply G. constructor.
Qed.

(** The groups come out in strictly ascending key order. *)
Hypothesis cmp_trans : forall a b c, cmp a b = Lt -> cmp b c = Lt -> cmp a c = Lt.
Hypothesis cmp_gt : forall a b, cmp a b = Gt -> cmp b a = Lt.
Hypothesis cmp_eq : forall a b, cmp a b = Eq -> a = b.

Lemma insert_group_ascending (r : TransactionRecord) gs :
  keys_ascending cmp gs -> keys_ascending cmp (insert_group cmp key r gs).
Proof.
  unfold keys_ascending.
  induction gs as [|[k rs] gs IH]; simpl; intros H.
  - repeat constructor.
  - inversion H as [|g gs' Hs Hall]; subst.
    destruct (cmp (key r) k) eqn:E.
    + constructor; [exact Hs|]. exact Hall.
    + constructor; [exact H|]. constructor; [exact E|].
      eapply Forall_impl; [|exact Hall]. intros h Hh. simpl in *.
      eapply cmp_trans; eassumption.
    + constructor; [apply IH; exact Hs|].
      rewrite Forall_forall in *. intros h Hh.
      assert (Hin : In (fst h) (map fst (insert_group cmp key r gs)))
        by (apply in_map; exact Hh).
      apply insert_group_keys in Hin; [|exact cmp_eq].
      destruct Hin as [Heq|Hin].
      * simpl. rewrite Heq. apply cmp_gt. exact E.
      * apply in_map_iff in Hin. destruct Hin as [h' [Hf Hh']].
        rewrite <- Hf. apply Hall. exact Hh'.
Qed.

Lemma groupby_ascending (df : DataFrame) :
  keys_ascending cmp (groupby cmp key df).
Proof.
  unfold groupby.
  assert (G : forall gs, keys_ascending cmp gs ->
             keys_ascending cmp (fold_left (fun gs r => insert_group cmp key r gs) df gs)).
  { induction df as [|r df IH]; intros gs Hgs; simpl; [exact Hgs|].
    apply IH. apply insert_group_ascending. exact Hgs. }
  apply G. constructor.
Qed.
End GroupByFacts.

(** ** The grouping key *)

Lemma string_compare_eq (a b : string) : String_as_OT.compare a b = Eq -> a = b.
Proof. destruct (String_as_OT.compare_spec a b); congruence. Qed.

Lemma string_compare_refl (a : string) : String_as_OT.compare a a = Eq.
Proof.
  destruct (String_as_OT.compare_spec a a) as [_|H|H]; [reflexivity| |];
    exfalso; revert H; apply (StrictOrder_Irreflexive a).
Qed.

Lemma string_compare_trans (a b c : string) :
  String_as_OT.compare a b = Lt -> String_as_OT.compare b c = Lt ->
  String_as_OT.compare a c = Lt.
Proof. apply (@StrictOrder_Transitive _ _ String_as_OT.lt_strorder). Qed.

Lemma string_compare_gt (a b : string) :
  String_as_OT.compare a b = Gt -> String_as_OT.compare b a = Lt.
Proof.
  intros H. destruct (String_as_OT.compare_spec a b) as [E|L|L]; try discriminate.
  exact L.
Qed.

Lemma key_compare_eq (a b : group_key) : key_compare a b = Eq -> a = b.
Proof.
  destruct a as [[s1 p1] c1], b as [[s2 p2] c2]. unfold key_compare.
  destruct (String_as_OT.compare s1 s2) eqn:Es; try discriminate.
  destruct (String_as_OT.compare p1 p2) eqn:Ep; try discriminate.
  intros Ec. apply string_compare_eq in Es, Ep, Ec. congruence.
Qed.

Lemma key_compare_gt (a b : group_key) : key_compare a b = Gt -> key_compare b a = Lt.
Proof.
  destruct a as [[s1 p1] c1], b as [[s2 p2] c2]. unfold key_compare.
  destruct (String_as_OT.compare s1 s2) eqn:Es; try discriminate.
  - apply string_compare_eq in Es. subst s2. rewrite string_compare_refl.
    destruct (String_as_OT.compare p1 p2) eqn:Ep; try discriminate.
    + apply string_compare_eq in Ep. subst p2. rewrite string_compare_refl.
      apply string_compare_gt.
    + apply string_compare_gt in Ep. rewrite Ep. reflexivity.
  - apply string_compare_gt in Es. rewrite Es. reflexivity.
Qed.

Lemma key_compare_trans (a b c : group_key) :
  key_compare a b = Lt -> key_compare b c = Lt -> key_compare a c = Lt.
Proof.
  destruct a as [[s1 p1] c1], b as [[s2 p2] c2], c as [[s3 p3] c3]. unfold key_compare.
  destruct (String_as_OT.compare s1 s2) eqn:E12; try discriminate.
  - apply string_compare_eq in E12. subst s2.
    destruct (String_as_OT.compare s1 s3) eqn:E13; try discriminate; [|reflexivity].
    destruct (String_as_OT.compare p1 p2) eqn:F12; try discriminate.
    + apply string_compare_eq in F12. subst p2.
      destruct (String_as_OT.compare p1 p3) eqn:F13; try discriminate; [|reflexivity].
      apply string_compare_trans.
    + intros _.
      destruct (String_as_OT.compare p2 p3) eqn:F23; try discriminate.
      * apply string_compare_eq in F23. subst p3. rewrite F12. reflexivity.
      * rewrite (string_compare_trans _ _ _ F12 F23). reflexivity.
  - intros _.
    destruct (String_as_OT.compare s2 s3) eqn:E23; try discriminate.
    + apply string_compare_eq in E23. subst s3. rewrite E12. reflexivity.
    + rewrite (string_compare_trans _ _ _ E12 E23). reflexivity.
Qed.

Lemma key_compare_refl (a : group_key) : key_compare a a = Eq.
Proof.
  destruct a as [[s p] c]. unfold key_compare. now rewrite !string_compare_refl.
Qed.

(** A smaller key has a sku that is not larger. *)
Lemma key_lt_sku (a b : group_key) :
  key_lt a b -> String_as_OT.compare (fst (fst a)) (fst (fst b)) <> Gt.
Proof.
  destruct a as [[s1 p1] c1], b as [[s2 p2] c2]. unfold key_lt, key_compare. simpl.
  destruct (String_as_OT.compare s1 s2); congruence.
Qed.

(** ** SKU aggregator *)

Lemma aggregate_key (g : group_key * list TransactionRecord) :
  metrics_key (aggregate g) = fst g.
Proof. destruct g as [[[s p] c] rs]. reflexivity. Qed.

Lemma aggregate_revenue (g : group_key * list TransactionRecord) :
  m_total_revenue (aggregate g) = sumQ (map total_revenue (snd g)).
Proof. destruct g as [[[s p] c] rs]. reflexivity. Qed.

(** On a frame without blank cells and in exact arithmetic the per-SKU
    revenue totals add up to the revenue total of the
    rows that were aggregated. *)
Lemma aggregation_conserves_revenue (df : DataFrame) :
  (sumQ (map m_total_revenue (calculate_sku_metrics df))
   == sumQ (map total_revenue df))%Q.
Proof.
  unfold calculate_sku_metrics. rewrite map_map.
  rewrite <- (groupby_revenue key_compare key_of df). unfold groups_revenue.
  induction (groupby key_compare key_of df) as [|g gs IH]; simpl.
  - reflexivity.
  - rewrite aggregate_revenue, IH. reflexivity.
Qed.

Lemma nunique_pos (l : list Z) : l <> [] -> 1 <= nunique l.
Proof.
  intros H. unfold nunique. destruct l as [|x l]; [congruence|].
  assert (Hin : In x (nodup Z.eq_dec (x :: l))) by (apply nodup_In; now left).
  destruct (nodup Z.eq_dec (x :: l)); [destruct Hin|]. simpl List.length. lia.
Qed.

Lemma fdiv_nonzero (a b : Q) : ~ (b == 0)%Q -> fdiv a b = Finite (a / b).
Proof.
  intros H. unfold fdiv. destruct (Qeq_bool b 0) eqn:E; [|reflexivity].
  apply Qeq_bool_eq in E. contradiction.
Qed.

Lemma inject_Z_nonzero (z : Z) : z <> 0 -> ~ (inject_Z z == 0)%Q.
Proof. unfold Qeq, inject_Z. simpl. lia. Qed.

(** On a frame without blank cells every row of the aggregator counts at
    least one day with
    sales, so its average daily quantity is an ordinary quotient. *)
Lemma days_with_sales_positive (df : DataFrame) (m : SkuMetrics) :
  In m (calculate_sku_metrics df) ->
  1 <= days_with_sales m /\
  avg_daily_quantity m =
    Finite (inject_Z (total_quantity m) / inject_Z (days_with_sales m)).
Proof.
  unfold calculate_sku_metrics. intros Hin.
  apply in_map_iff in Hin. destruct Hin as [g [Hg Hin]].
  pose proof (groupby_sound key_compare key_of df key_compare_eq) as Hs.
  unfold groups_sound in Hs. rewrite Forall_forall in Hs.
  destruct (Hs g Hin) as [Hne _].
  destruct g as [[[s p] c] rs]. simpl in Hne. subst m. simpl.
  assert (Hd : 1 <= nunique (map date rs)).
  { apply nunique_pos. destruct rs; [congruence | discriminate]. }
  split; [exact Hd|].
  apply fdiv_nonzero, inject_Z_nonzero. lia.
Qed.

Lemma days_with_sales_positive_witness :
  let df := [mkRecord 0 "A" "Tea" "Beverages" 3 (2#1) (6#1)] in
  let m := aggregate (("A", "Tea", "Beverages")%string, df) in
  In m (calculate_sku_metrics df) /\
  1 <= days_with_sales m /\
  avg_daily_quantity m =
    Finite (inject_Z (total_quantity m) / inject_Z (days_with_sales m)).
Proof.
  intros df m.
  assert (Hin : In m (calculate_sku_metrics df)) by (vm_compute; left; reflexivity).
  split; [exact Hin|].
  exact (days_with_sales_positive df m Hin).
Defined.

(** *** One row per key triple *)

Lemma NoDup_map_on {A B : Type} (f : A -> B) (l : list A) :
  NoDup l -> (forall x y, In x l -> In y l -> f x = f y -> x = y) ->
  NoDup (map f l).
Proof.
  induction 1 as [|x l Hx Hl IH]; intros Hinj; simpl; constructor.
  - intros Hin. apply in_map_iff in Hin. destruct Hin as [y [Hy Hin]].
    assert (y = x) by (apply Hinj; simpl; auto). subst y. contradiction.
  - apply IH. intros a b Ha Hb. apply Hinj; simpl; auto.
Qed.

Lemma ascending_NoDup {K : Type} (cmp : K -> K -> comparison)
      (gs : list (K * list TransactionRecord)) :
  (forall a, cmp a a <> Lt) -> keys_ascending cmp gs -> NoDup (map fst gs).
Proof.
  intros Hirr. unfold keys_ascending. induction 1 as [|g gs Hs IH Hall]; simpl; constructor.
  - intros Hin. apply in_map_iff in Hin. destruct Hin as [h [Hh Hin]].
    rewrite Forall_forall in Hall. specialize (Hall h Hin). rewrite Hh in Hall.
    exact (Hirr _ Hall).
  - exact IH.
Qed.

Lemma metrics_keys (df : DataFrame) :
  map metrics_key (calculate_sku_metrics df) = map fst (groupby key_compare key_of df).
Proof.
  unfold calculate_sku_metrics. rewrite map_map. apply map_ext. apply aggregate_key.
Qed.

Lemma metrics_keys_NoDup (df : DataFrame) :
  NoDup (map metrics_key (calculate_sku_metrics df)).
Proof.
  rewrite metrics_keys. apply ascending_NoDup with (cmp := key_compare).
  - intros a. rewrite key_compare_refl. discriminate.
  - apply groupby_ascending.
    + apply key_compare_trans.
    + apply key_compare_gt.
    + apply key_compare_eq.
Qed.

Lemma metrics_keys_In (df : DataFrame) (k : group_key) :
  In k (map metrics_key (calculate_sku_metrics df)) <-> In k (map key_of df).
Proof. rewrite metrics_keys. apply groupby_keys. apply key_compare_eq. Qed.

(** The aggregator yields exactly one row for each distinct triple
    (sku, product_name, category). *)
Lemma one_row_per_key (df : DataFrame) :
  Permutation (map metrics_key (calculate_sku_metrics df)) (distinct_keys df).
Proof.
  apply NoDup_Permutation.
  - apply metrics_keys_NoDup.
  - apply NoDup_nodup.
  - intros k. unfold distinct_keys. rewrite nodup_In. apply metrics_keys_In.
Qed.

(** On a consistent frame that is one row for each distinct sku. *)
Lemma one_row_per_sku (df : DataFrame) :
  consistent df ->
  Permutation (map m_sku (calculate_sku_metrics df)) (distinct_skus df).
Proof.
  intros Hc.
  assert (E : map m_sku (calculate_sku_metrics df)
              = map (fun k : group_key => fst (fst k))
                    (map metrics_key (calculate_sku_metrics df))).
  { rewrite map_map. reflexivity. }
  rewrite E. apply NoDup_Permutation.
  - apply NoDup_map_on; [apply metrics_keys_NoDup|].
    intros a b Ha Hb Hab.
    apply metrics_keys_In, in_map_iff in Ha. destruct Ha as [r1 [<- H1]].
    apply metrics_keys_In, in_map_iff in Hb. destruct Hb as [r2 [<- H2]].
    unfold key_of in *. simpl in Hab.
    destruct (Hc r1 r2 H1 H2 Hab) as [Hp Hcat]. congruence.
  - apply NoDup_nodup.
  - intros s. unfold distinct_skus. rewrite nodup_In. split; intros Hin.
    + apply in_map_iff in Hin. destruct Hin as [k [<- Hk]].
      apply metrics_keys_In, in_map_iff in Hk. destruct Hk as [r [<- Hr]].
      apply in_map_iff. exists r. split; [reflexivity | exact Hr].
    + apply in_map_iff in Hin. destruct Hin as [r [<- Hr]].
      apply in_map_iff. exists (key_of r). split; [reflexivity|].
      apply metrics_keys_In. apply in_map. exact Hr.
Qed.

(** C3: a sku that occurs under two product names gets two rows, while
    the claim promises one. *)
Theorem duplicate_rows_for_one_sku :
  let df := [mkRecord 0 "A" "Tea" "Beverages" 1 (2#1) (2#1);
             mkRecord 0 "A" "Green Tea" "Beverages" 1 (2#1) (2#1)] in
  map m_sku (calculate_sku_metrics df) = ["A"; "A"]%string /\
  distinct_skus df = ["A"]%string.
Proof. split; vm_compute; reflexivity. Qed.

(** *** Division by the total quantity *)

Lemma fdiv_zero (a : Q) : forall q, fdiv a (inject_Z 0) <> Finite q.
Proof.
  intros q. unfold fdiv. simpl.
  destruct (Qeq_bool a 0); [discriminate|]. destruct (Qle_bool 0 a); discriminate.
Qed.

(** X12: a row whose total quantity is zero never has a rational average
    order value: it is NaN or an infinity. *)
Lemma zero_quantity_never_finite (df : DataFrame) (m : SkuMetrics) :
  In m (calculate_sku_metrics df) -> total_quantity m = 0 ->
  forall q, avg_order_value m <> Finite q.
Proof.
  unfold calculate_sku_metrics. intros Hin Hz q.
  apply in_map_iff in Hin. destruct Hin as [[[[s p] c] rs] [<- _]].
  simpl in *. rewrite Hz. apply fdiv_zero.
Qed.

(** C4: for a group whose quantities add up to zero the average order
    value is NaN, not 0; the page-wide average, which is guarded, is 0
    on the same rows. *)
Theorem zero_quantity_order_value_is_nan :
  let df := [mkRecord 0 "A" "Tea" "Beverages" 0 (5#1) 0] in
  map total_quantity (calculate_sku_metrics df) = [0] /\
  map avg_order_value (calculate_sku_metrics df) = [NaN] /\
  overall_aov df = Finite 0.
Proof. repeat split; vm_compute; reflexivity. Qed.

(** ** Order on column values *)

Lemma fle_total (x y : fnum) :
  is_nan x = false -> is_nan y = false -> fle x y = true \/ fle y x = true.
Proof.
  destruct x as [a| | |], y as [b| | |]; simpl; intros Hx Hy;
    try discriminate; auto.
  rewrite !Qle_bool_iff. destruct (Qlt_le_dec b a) as [H|H]; [right|left].
  - apply Qlt_le_weak. exact H.
  - exact H.
Qed.

Lemma fle_trans (x y z : fnum) :
  fle x y = true -> fle y z = true -> fle x z = true.
Proof.
  destruct x as [a| | |], y as [b| | |], z as [c| | |]; simpl;
    try discriminate; auto.
  rewrite !Qle_bool_iff. apply Qle_trans.
Qed.

Lemma fle_not_nan (x y : fnum) : fle x y = true -> is_nan x = false /\ is_nan y = false.
Proof. destruct x, y; simpl; try discriminate; auto. Qed.

(** ** Lists sorted for a relation *)

Lemma StronglySorted_impl {A : Type} (R R' : A -> A -> Prop) (l : list A) :
  (forall a b, In a l -> In b l -> R a b -> R' a b) ->
  StronglySorted R l -> StronglySorted R' l.
Proof.
  intros Himp H. induction H as [|a l Hs IH Hall]; constructor.
  - apply IH. intros x y Hx Hy. apply Himp; simpl; auto.
  - rewrite Forall_forall in *. intros b Hb. apply Himp; simpl; auto.
Qed.

Lemma StronglySorted_app {A : Type} (R : A -> A -> Prop) (l1 l2 : list A) :
  StronglySorted R l1 -> StronglySorted R l2 ->
  (forall a b, In a l1 -> In b l2 -> R a b) ->
  StronglySorted R (l1 ++ l2).
Proof.
  intros H1 H2 Hx. induction H1 as [|a l1 Hs IH Hall]; simpl; [exact H2|].
  constructor.
  - apply IH. intros x y Hin. apply Hx. now right.
  - apply Forall_app. split; [exact Hall|].
    rewrite Forall_forall. intros b Hb. apply Hx; simpl; auto.
Qed.

Lemma StronglySorted_rev {A : Type} (R : A -> A -> Prop) (l : list A) :
  StronglySorted R l -> StronglySorted (fun a b => R b a) (rev l).
Proof.
  induction 1 as [|a l Hs IH Hall]; simpl; [constructor|].
  apply StronglySorted_app.
  - exact IH.
  - repeat constructor.
  - intros x y Hx [<-|[]]. rewrite Forall_forall in Hall.
    apply Hall. apply in_rev. exact Hx.
Qed.

Lemma StronglySorted_filter {A : Type} (R : A -> A -> Prop) (p : A -> bool) (l : list A) :
  StronglySorted R l -> StronglySorted R (filter p l).
Proof.
  induction 1 as [|a l Hs IH Hall]; simpl; [constructor|].
  destruct (p a); [|exact IH]. constructor; [exact IH|].
  rewrite Forall_forall in *. intros b Hb. apply Hall.
  apply filter_In in Hb. tauto.
Qed.

Lemma firstn_incl {A : Type} (n : nat) (l : list A) (x : A) :
  In x (firstn n l) -> In x l.
Proof.
  intros H. rewrite <- (firstn_skipn n l). apply in_or_app. now left.
Qed.

Lemma StronglySorted_firstn {A : Type} (R : A -> A -> Prop) (n : nat) (l : list A) :
  StronglySorted R l -> StronglySorted R (firstn n l).
Proof.
  intros H. revert n. induction H as [|a l Hs IH Hall]; intros [|n]; simpl;
    try constructor.
  - apply IH.
  - rewrite Forall_forall in *. intros b Hb. apply Hall.
    eapply firstn_incl; exact Hb.
Qed.

Lemma StronglySorted_map {A B : Type} (R : B -> B -> Prop) (f : A -> B) (l : list A) :
  StronglySorted R (map f l) <-> StronglySorted (fun a b => R (f a) (f b)) l.
Proof.
  induction l as [|a l IH]; simpl; split; intros H; try constructor;
    inversion H as [|? ? Hs Hall]; subst.
  - apply IH. exact Hs.
  - rewrite Forall_forall in *. intros b Hb. apply Hall. apply in_map. exact Hb.
  - apply IH. exact Hs.
  - rewrite Forall_forall in *. intros b Hb.
    apply in_map_iff in Hb. destruct Hb as [x [<- Hx]]. apply Hall. exact Hx.
Qed.

Lemma filter_split_perm {A : Type} (p : A -> bool) (l : list A) :
  Permutation (filter (fun a => negb (p a)) l ++ filter p l) l.
Proof.
  induction l as [|a l IH]; simpl; [constructor|].
  destruct (p a); simpl.
  - apply Permutation_sym, Permutation_cons_app, Permutation_sym. exact IH.
  - constructor. exact IH.
Qed.

(** ** The two insertion sorts meet the sort contract *)

Section InsertionSorts.
Context {A : Type} (k : A -> fnum).

Lemma insert_before_perm (x : A) (l : list A) :
  Permutation (insert_before k x l) (x :: l).
Proof.
  induction l as [|y l IH]; simpl; [reflexivity|].
  destruct (fle (k x) (k y)); [reflexivity|].
  rewrite IH. apply perm_swap.
Qed.

Lemma insert_before_sorted (x : A) (l : list A) :
  is_nan (k x) = false -> Forall (fun a => is_nan (k a) = false) l ->
  StronglySorted (ascending k) l -> StronglySorted (ascending k) (insert_before k x l).
Proof.
  intros Hx Hl Hs. induction Hs as [|y l Hs IH Hall]; simpl.
  - repeat constructor.
  - inversion Hl as [|? ? Hy Hl']; subst.
    destruct (fle (k x) (k y)) eqn:E.
    + constructor; [constructor; assumption|].
      constructor; [exact E|].
      eapply Forall_impl; [|exact Hall]. intros z Hz. unfold ascending in *.
      eapply fle_trans; eassumption.
    + constructor; [apply IH; exact Hl'|].
      assert (Hyx : ascending k y x).
      { unfold ascending. destruct (fle_total (k x) (k y) Hx Hy); congruence. }
      rewrite Forall_forall in *. intros z Hz.
      apply (Permutation_in _ (insert_before_perm x l)) in Hz.
      destruct Hz as [<-|Hz]; [exact Hyx | apply Hall; exact Hz].
Qed.
End InsertionSorts.

Lemma stable_sort_perm {A : Type} (k : A -> fnum) (l : list A) :
  Permutation (stable_sort A k l) l.
Proof.
  unfold stable_sort. induction l as [|x l IH]; simpl; [constructor|].
  rewrite insert_before_perm. constructor. exact IH.
Qed.

Lemma stable_sort_ok : sorter_ok stable_sort.
Proof.
  intros A k l Hl. split; [apply stable_sort_perm|].
  induction Hl as [|x l Hx Hl IH]; simpl; [constructor|].
  apply insert_before_sorted; [exact Hx| |exact IH].
  rewrite Forall_forall in *. intros a Ha. apply Hl.
  apply (Permutation_in _ (stable_sort_perm k l)). exact Ha.
Qed.

(** ** [sort_values] *)

Section SortValues.
Context (srt : Sorter) (Hsrt : sorter_ok srt).
Context {A : Type} (k : A -> fnum).

Lemma defined_keys (df : list A) :
  Forall (fun a => is_nan (k a) = false) (rev (filter (fun r => negb (is_nan (k r))) df)).
Proof.
  rewrite Forall_forall. intros a Ha. apply in_rev, filter_In in Ha.
  destruct Ha as [_ Ha]. now apply negb_true_iff in Ha.
Qed.

Lemma sort_values_desc_perm (df : list A) :
  Permutation (sort_values_desc srt k df) df.
Proof.
  unfold sort_values_desc.
  destruct (Hsrt A k _ (defined_keys df)) as [Hp _].
  rewrite <- (filter_split_perm (fun r => is_nan (k r)) df) at 3.
  apply Permutation_app_tail.
  rewrite <- Permutation_rev, Hp, <- Permutation_rev. reflexivity.
Qed.

Lemma sort_values_desc_ranked (df : list A) :
  StronglySorted (fun a b => ranks_before (k a) (k b) = true) (sort_values_desc srt k df).
Proof.
  unfold sort_values_desc.
  destruct (Hsrt A k _ (defined_keys df)) as [_ Hs].
  apply StronglySorted_app.
  - apply StronglySorted_rev in Hs.
    eapply StronglySorted_impl; [|exact Hs].
    intros a b _ _ H. unfold ascending in H. unfold ranks_before.
    rewrite H. apply orb_true_r.
  - clear Hs. induction df as [|a df IH]; simpl; [constructor|].
    destruct (is_nan (k a)) eqn:E; [|exact IH].
    constructor; [exact IH|].
    rewrite Forall_forall. intros b Hb. apply filter_In in Hb.
    unfold ranks_before. destruct Hb as [_ ->]. reflexivity.
  - intros a b _ Hb. apply filter_In in Hb. unfold ranks_before.
    destruct Hb as [_ ->]. reflexivity.
Qed.
End SortValues.

Lemma sku_metrics_sorted_eq (srt : Sorter) (metric : Metric) (rows : list SkuMetrics) :
  sku_metrics_sorted srt metric rows = sort_values_desc srt (metric_column metric) rows.
Proof. destruct metric; reflexivity. Qed.

Lemma head_firstn {A : Type} (n : Z) (l : list A) :
  0 <= n -> head n l = firstn (Z.to_nat n) l.
Proof. intros H. unfold head. apply Z.leb_le in H. rewrite H. reflexivity. Qed.

(** ** Ranker *)

Lemma metrics_ascending (df : DataFrame) :
  StronglySorted (fun a b => key_lt (metrics_key a) (metrics_key b))
                 (calculate_sku_metrics df).
Proof.
  apply (proj1 (StronglySorted_map key_lt metrics_key (calculate_sku_metrics df))).
  rewrite metrics_keys.
  apply (proj2 (StronglySorted_map key_lt fst (groupby key_compare key_of df))).
  apply (groupby_ascending key_compare key_of key_compare_trans key_compare_gt
                           key_compare_eq df).
Qed.

(** *** Ties *)

Section Stability.
Context {A : Type} (k : A -> fnum) (before : A -> A -> Prop).

(** Ascending by key; of two rows with the same key the one that is
    later in the frame comes first. *)
Let later_first (a b : A) : Prop :=
  ascending k a b /\ (fle (k b) (k a) = true -> before b a).

Lemma insert_before_later_first (x : A) (s : list A) :
  is_nan (k x) = false ->
  Forall (fun b => is_nan (k b) = false) s ->
  Forall (fun b => before b x) s ->
  StronglySorted later_first s ->
  StronglySorted later_first (insert_before k x s).
Proof.
  intros Hx Hn Hb Hs. induction Hs as [|y s Hs IH Hall]; simpl.
  - repeat constructor.
  - inversion Hn as [|? ? Hy Hn']; subst. inversion Hb as [|? ? Hyx Hb']; subst.
    destruct (fle (k x) (k y)) eqn:E.
    + constructor; [constructor; assumption|].
      constructor; [split; [exact E | intros _; exact Hyx]|].
      rewrite Forall_forall in *. intros z Hz. split.
      * destruct (Hall z Hz) as [Hyz _]. unfold ascending in *.
        eapply fle_trans; eassumption.
      * intros _. apply Hb'. exact Hz.
    + constructor; [apply IH; assumption|].
      rewrite Forall_forall in *. intros z Hz.
      apply (Permutation_in _ (insert_before_perm k x s)) in Hz.
      destruct Hz as [<-|Hz]; [|apply Hall; exact Hz].
      split; [|intros F; congruence].
      unfold ascending. destruct (fle_total (k x) (k y) Hx Hy); congruence.
Qed.

Lemma stable_sort_later_first (l : list A) :
  Forall (fun b => is_nan (k b) = false) l ->
  StronglySorted (fun a b => before b a) l ->
  StronglySorted later_first (stable_sort A k l).
Proof.
  intros Hn Hs. induction Hs as [|x l Hs IH Hall]; simpl; [constructor|].
  inversion Hn as [|? ? Hx Hn']; subst.
  apply insert_before_later_first.
  - exact Hx.
  - rewrite Forall_forall in *. intros b Hb. apply Hn'.
    apply (Permutation_in _ (stable_sort_perm k l)). exact Hb.
  - rewrite Forall_forall in *. intros b Hb. apply Hall.
    apply (Permutation_in _ (stable_sort_perm k l)). exact Hb.
  - apply IH. exact Hn'.
Qed.

(** With the stable sort, [sort_values] keeps tied rows in frame
    order. *)
Lemma stable_sort_values_ties (df : list A) :
  StronglySorted before df ->
  StronglySorted (fun a b => tied (k a) (k b) = true -> before a b)
                 (sort_values_desc stable_sort k df).
Proof.
  intros Hdf. unfold sort_values_desc.
  set (non_nans := filter (fun r => negb (is_nan (k r))) df).
  assert (Hs : StronglySorted later_first (stable_sort A k (rev non_nans))).
  { apply stable_sort_later_first; [apply defined_keys|].
    apply StronglySorted_rev. apply StronglySorted_filter. exact Hdf. }
  apply StronglySorted_app.
  - apply StronglySorted_rev in Hs.
    eapply StronglySorted_impl; [|exact Hs].
    intros a b _ _ [Hba Hab] Ht. apply Hab.
    unfold ascending in Hba. destruct (fle_not_nan _ _ Hba) as [Hb Ha].
    unfold tied in Ht. rewrite Ha in Ht. simpl in Ht.
    apply andb_true_iff in Ht. tauto.
  - eapply StronglySorted_impl; [|apply StronglySorted_filter; exact Hdf].
    intros a b _ _ H _. exact H.
  - intros a b Ha Hb Ht. exfalso.
    apply in_rev in Ha. apply (Permutation_in _ (stable_sort_perm k _)) in Ha.
    apply in_rev in Ha. apply filter_In in Ha. destruct Ha as [_ Ha].
    apply negb_true_iff in Ha.
    apply filter_In in Hb. destruct Hb as [_ Hb].
    unfold tied in Ht. rewrite Ha in Ht. simpl in Ht.
    apply andb_true_iff in Ht. destruct Ht as [Ht _].
    apply fle_not_nan in Ht. destruct Ht as [_ Ht]. congruence.
Qed.
End Stability.

(** With the stable sort of this file behind [sort_values], rows
    tied on the selected metric are listed in ascending sku order,
    because they keep the key order in which the aggregator emits
    them. *)
Lemma stable_ranking_ties_by_sku (df : DataFrame) (metric : Metric) (N : Z) :
  1 <= N -> ties_by_sku metric (top_skus stable_sort metric N df).
Proof.
  intros HN. unfold ties_by_sku, top_skus.
  rewrite head_firstn by lia. rewrite sku_metrics_sorted_eq.
  apply StronglySorted_firstn.
  eapply StronglySorted_impl;
    [|apply (stable_sort_values_ties (metric_column metric)
               (fun a b => key_lt (metrics_key a) (metrics_key b)));
      apply metrics_ascending].
  intros a b _ _ H Ht. apply (key_lt_sku (metrics_key a) (metrics_key b)).
  apply H. exact Ht.
Qed.

Lemma stable_ranking_ties_by_sku_witness :
  ties_by_sku TotalRevenue
    (top_skus stable_sort TotalRevenue 5
       [mkRecord 0 "B" "Mug" "Home" 1 (10#1) (10#1);
        mkRecord 0 "A" "Tea" "Beverages" 1 (10#1) (10#1)]).
Proof.
  apply stable_ranking_ties_by_sku. lia.
Defined.

(** ** Upload *)

Section UploadFacts.
Variable parse_datetime : string -> result Z.
Variable srt : Sorter.

(** Without a [unit_price] column the upload step raises. *)
Lemma handle_upload_no_price (df : CsvFrame) :
  csv_unit_price df = None ->
  exists e, handle_upload parse_datetime df = Raise e.
Proof.
  intros Hu. unfold handle_upload.
  destruct (csv_date df) as [raw|]; simpl; [|eauto].
  destruct (to_datetime parse_datetime raw) as [dates|e]; simpl; [|eauto].
  destruct (csv_quantity_sold df) as [qs|]; simpl; [|eauto].
  rewrite Hu. simpl. eauto.
Qed.

(** The exception names [unit_price] when the two columns read before
    it are in order. *)
Lemma handle_upload_names_price (df : CsvFrame) raw dates qs :
  csv_unit_price df = None ->
  csv_date df = Some raw -> to_datetime parse_datetime raw = Ok dates ->
  csv_quantity_sold df = Some qs ->
  handle_upload parse_datetime df = Raise (KeyError "unit_price").
Proof.
  intros Hu Hd Ht Hq. unfold handle_upload.
  rewrite Hd. simpl. rewrite Ht. simpl. rewrite Hq. simpl. rewrite Hu. reflexivity.
Qed.

Lemma prelude_static (src : data_source) :
  Forall (fun el => shows_data el = false) (page_prelude src).
Proof. destruct src; repeat constructor. Qed.

(** C6, amended: an upload without [unit_price] stops the page at the
    upload step with an exception; what is on the page by then shows
    nothing computed from the file; and when [date] is there and
    parses and [quantity_sold] is there, the exception is
    [KeyError('unit_price')], whose text is the quoted column
    name. *)
Theorem missing_unit_price_stops_page (sample : DataFrame) (df : CsvFrame)
        (metric : Metric) (top_n : Z) (date_range : list Z) :
  csv_unit_price df = None ->
  exists e,
    page parse_datetime srt sample (UploadCsv (Some df)) metric top_n date_range
    = (page_prelude (UploadCsv (Some df)), Some e) /\
    Forall (fun el => shows_data el = false) (page_prelude (UploadCsv (Some df))) /\
    (forall raw dates qs,
        csv_date df = Some raw -> to_datetime parse_datetime raw = Ok dates ->
        csv_quantity_sold df = Some qs ->
        e = KeyError "unit_price" /\ exn_message e = "'unit_price'"%string).
Proof.
  intros Hu. destruct (handle_upload_no_price df Hu) as [e He].
  exists e. split; [|split].
  - unfold page. rewrite He. reflexivity.
  - apply prelude_static.
  - intros raw dates qs Hd Ht Hq.
    rewrite (handle_upload_names_price df raw dates qs Hu Hd Ht Hq) in He.
    injection He as <-. split; reflexivity.
Qed.
End UploadFacts.

(** C6, as stated, fails: the exception raised for a file without
    [unit_price] does not carry the text "missing column: unit_price". *)
Lemma missing_column_message_differs :
  ~ (forall (parse_datetime : string -> result Z) (srt : Sorter) (sample : DataFrame)
            (df : CsvFrame) (metric : Metric) (top_n : Z) (date_range : list Z),
        csv_unit_price df = None ->
        exists out e,
          page parse_datetime srt sample (UploadCsv (Some df)) metric top_n date_range
          = (out, Some e) /\
          exn_message e = "missing column: unit_price"%string /\
          Forall (fun el => shows_data el = false) out).
Proof.
  intros H.
  destruct (H (fun _ => Ok 0) stable_sort []
              (mkCsv (Some ["2024-01-01"%string]) (Some ["A"%string])
                     (Some ["Tea"%string]) (Some ["Beverages"%string])
                     (Some [3]) None)
              TotalRevenue 10 [] eq_refl) as [out [e [Hp [Hm _]]]].
  vm_compute in Hp. injection Hp as _ <-.
  vm_compute in Hm. discriminate Hm.
Qed.

Lemma missing_unit_price_stops_page_witness :
  let df := mkCsv (Some ["2024-01-01"%string]) (Some ["A"%string])
                  (Some ["Tea"%string]) (Some ["Beverages"%string])
                  (Some [3]) None in
  exists e,
    page (fun _ => Ok 0) stable_sort [] (UploadCsv (Some df)) TotalRevenue 10 []
    = (page_prelude (UploadCsv (Some df)), Some e) /\
    Forall (fun el => shows_data el = false) (page_prelude (UploadCsv (Some df))) /\
    (forall raw dates qs,
        csv_date df = Some raw -> to_datetime (fun _ => Ok 0) raw = Ok dates ->
        csv_quantity_sold df = Some qs ->
        e = KeyError "unit_price" /\ exn_message e = "'unit_price'"%string).
Proof.
  intros df.
  exact (missing_unit_price_stops_page (fun _ => Ok 0) stable_sort [] df
           TotalRevenue 10 [] eq_refl).
Defined.

(** A complete upload, for comparison: the revenue column is recomputed
    and the dashboard follows the controls. *)
Example complete_upload_renders :
  let df := mkCsv (Some ["2024-01-01"%string]) (Some ["A"%string])
                  (Some ["Tea"%string]) (Some ["Beverages"%string])
                  (Some [3]) (Some [2#1]) in
  exists out,
    page (fun _ => Ok 0) stable_sort [] (UploadCsv (Some df)) TotalRevenue 10 []
    = (out, None) /\
    In (MetricCard "Total Revenue" (Finite (6#1))) out.
Proof.
  intros df. eexists. split; [vm_compute; reflexivity|].
  simpl. tauto.
Qed.

(** * Further properties of the script *)

(** ** Date-range filter, continued *)

Lemma fold_min_le (l : list Z) (a : Z) :
  fold_left Z.min l a <= a /\ forall x, In x l -> fold_left Z.min l a <= x.
Proof.
  revert a. induction l as [|y l IH]; intros a; simpl.
  - split; [lia | intros x []].
  - destruct (IH (Z.min a y)) as [H1 H2]. split; [lia|].
    intros x [<-|Hx]; [lia | apply H2; exact Hx].
Qed.

Lemma fold_max_ge (l : list Z) (a : Z) :
  a <= fold_left Z.max l a /\ forall x, In x l -> x <= fold_left Z.max l a.
Proof.
  revert a. induction l as [|y l IH]; intros a; simpl.
  - split; [lia | intros x []].
  - destruct (IH (Z.max a y)) as [H1 H2]. split; [lia|].
    intros x [<-|Hx]; [lia | apply H2; exact Hx].
Qed.

Lemma col_min_le (l : list Z) (lo x : Z) : col_min l = Some lo -> In x l -> lo <= x.
Proof.
  destruct l as [|a l]; simpl; [discriminate|]. intros [= <-] [<-|Hx].
  - apply (proj1 (fold_min_le l a)).
  - apply (proj2 (fold_min_le l a)). exact Hx.
Qed.

Lemma col_max_ge (l : list Z) (hi x : Z) : col_max l = Some hi -> In x l -> x <= hi.
Proof.
  destruct l as [|a l]; simpl; [discriminate|]. intros [= <-] [<-|Hx].
  - apply (proj1 (fold_max_ge l a)).
  - apply (proj2 (fold_max_ge l a)). exact Hx.
Qed.

Lemma dt_date_mono (a b : Z) : a <= b -> dt_date a <= dt_date b.
Proof. intros H. unfold dt_date. apply Z.div_le_mono; [reflexivity | exact H]. Qed.

Lemma filter_all {A : Type} (p : A -> bool) (l : list A) :
  (forall x, In x l -> p x = true) -> filter p l = l.
Proof.
  induction l as [|x l IH]; simpl; intros H; [reflexivity|].
  rewrite (H x (or_introl eq_refl)). f_equal. apply IH. intros y Hy. apply H. now right.
Qed.

Lemma filter_filter {A : Type} (p q : A -> bool) (l : list A) :
  filter p (filter q l) = filter (fun x => q x && p x) l.
Proof.
  induction l as [|x l IH]; simpl; [reflexivity|].
  destruct (q x); simpl; [destruct (p x)|]; rewrite IH; reflexivity.
Qed.

(** X2: filtering by one pair of days and then by another is filtering by
    their intersection; so the order of two filters does not matter. *)
Theorem date_filter_compose (df : DataFrame) (s1 e1 s2 e2 : Z) :
  df_filtered (df_filtered df [s1; e1]) [s2; e2]
  = df_filtered df [Z.max s1 s2; Z.min e1 e2] /\
  df_filtered (df_filtered df [s1; e1]) [s2; e2]
  = df_filtered (df_filtered df [s2; e2]) [s1; e1].
Proof.
  rewrite !df_filtered_pair. unfold rows_within. rewrite !filter_filter.
  split; apply filter_ext; intros r; unfold in_range;
    destruct (s1 <=? dt_date (date r)) eqn:A1, (dt_date (date r) <=? e1) eqn:B1,
             (s2 <=? dt_date (date r)) eqn:A2, (dt_date (date r) <=? e2) eqn:B2;
    simpl; try reflexivity;
    rewrite ?Z.leb_le, ?Z.leb_gt in *;
    try (symmetry; apply andb_true_iff; split; apply Z.leb_le; lia);
    try (symmetry; apply andb_false_iff; rewrite !Z.leb_gt; lia).
Qed.

(** ** Upload, continued *)

Section UploadOrder.
Variable parse_datetime : string -> result Z.

Lemma to_datetime_cells (col : list string) (dates : list Z) :
  to_datetime parse_datetime col = Ok dates <->
  Forall2 (fun s d => parse_datetime s = Ok d) col dates.
Proof.
  unfold to_datetime. revert dates.
  induction col as [|s col IH]; intros dates; simpl; split; intros H.
  - injection H as <-. constructor.
  - inversion H. reflexivity.
  - destruct (parse_datetime s) as [d|e] eqn:Es; simpl in H; [|discriminate].
    destruct (map_result parse_datetime col) as [ds|e] eqn:Er; simpl in H; [|discriminate].
    injection H as <-. constructor; [exact Es|]. apply IH. reflexivity.
  - inversion H as [|? d ? ds Hs Hrest]; subst. rewrite Hs. simpl.
    apply IH in Hrest. rewrite Hrest. reflexivity.
Qed.

(** The first unreadable cell decides the exception. *)
Lemma to_datetime_first_failure (ok : list string) (bad : string) (rest : list string)
      (e : exn) :
  (forall s, In s ok -> exists d, parse_datetime s = Ok d) ->
  parse_datetime bad = Raise e ->
  to_datetime parse_datetime (ok ++ bad :: rest) = Raise e.
Proof.
  unfold to_datetime. induction ok as [|s ok IH]; intros Hok Hbad; simpl.
  - rewrite Hbad. reflexivity.
  - destruct (Hok s (or_introl eq_refl)) as [d ->]. simpl.
    rewrite IH; [reflexivity | | exact Hbad].
    intros s' Hs'. apply Hok. now right.
Qed.

(** X4: the upload step reports the first thing that is wrong, in the
    order in which lines 101 and 102 touch the frame: a missing [date]
    column, an unreadable date, a missing [quantity_sold] column. *)
Theorem upload_error_precedence (df : CsvFrame) :
  (csv_date df = None ->
   handle_upload parse_datetime df = Raise (KeyError "date")) /\
  (forall raw e,
      csv_date df = Some raw -> to_datetime parse_datetime raw = Raise e ->
      handle_upload parse_datetime df = Raise e) /\
  (forall raw dates,
      csv_date df = Some raw -> to_datetime parse_datetime raw = Ok dates ->
      csv_quantity_sold df = None ->
      handle_upload parse_datetime df = Raise (KeyError "quantity_sold")).
Proof.
  unfold handle_upload. repeat split.
  - intros ->. reflexivity.
  - intros raw e -> Ht. simpl. rewrite Ht. reflexivity.
  - intros raw dates -> Ht Hq. simpl. rewrite Ht. simpl. rewrite Hq. reflexivity.
Qed.
End UploadOrder.

Lemma upload_error_precedence_witness :
  handle_upload (fun _ => Ok 0)
                (mkCsv None (Some ["A"%string]) (Some ["Tea"%string])
                       (Some ["Beverages"%string]) None None)
  = Raise (KeyError "date").
Proof.
  apply (proj1 (upload_error_precedence (fun _ => Ok 0) _)). reflexivity.
Defined.

Lemma zip_rows_revenue (ds : list Z) (ss ps cs : list string) (qs : list Z) (us : list Q) :
  Forall (fun r => total_revenue r = (inject_Z (quantity_sold r) * unit_price r)%Q)
         (zip_rows ds ss ps cs qs us (col_mul qs us)).
Proof.
  revert ss ps cs qs us.
  induction ds as [|d ds IH]; intros [|s ss] [|p ps] [|c cs] [|q qs] [|u us];
    simpl; try constructor.
  - reflexivity.
  - apply IH.
Qed.

Lemma zip_rows_columns (n : nat) (ds : list Z) (ss ps cs : list string)
      (qs : list Z) (us ts : list Q) :
  List.length ds = n -> List.length ss = n -> List.length ps = n ->
  List.length cs = n -> List.length qs = n -> List.length us = n ->
  List.length ts = n ->
  let rows := zip_rows ds ss ps cs qs us ts in
  map date rows = ds /\ map sku rows = ss /\ map product_name rows = ps /\
  map category rows = cs /\ map quantity_sold rows = qs /\ map unit_price rows = us /\
  map total_revenue rows = ts.
Proof.
  revert ds ss ps cs qs us ts.
  induction n as [|n IH]; intros [|d ds] [|s ss] [|p ps] [|c cs] [|q qs] [|u us] [|t ts];
    simpl; try discriminate; intros H1 H2 H3 H4 H5 H6 H7.
  - repeat split.
  - injection H1 as H1. injection H2 as H2. injection H3 as H3. injection H4 as H4.
    injection H5 as H5. injection H6 as H6. injection H7 as H7.
    destruct (IH ds ss ps cs qs us ts H1 H2 H3 H4 H5 H6 H7)
      as (E1 & E2 & E3 & E4 & E5 & E6 & E7).
    simpl in *. rewrite E1, E2, E3, E4, E5, E6, E7. repeat split.
Qed.

Lemma col_mul_length (qs : list Z) (us : list Q) :
  List.length qs = List.length us -> List.length (col_mul qs us) = List.length qs.
Proof.
  revert us. induction qs as [|q qs IH]; intros [|u us]; simpl; try discriminate;
    auto.
Qed.

(** X5: a complete upload with readable dates loads: the rows carry the
    uploaded columns unchanged, one row per line, and every row's
    revenue is its quantity times its unit price. *)
Theorem complete_upload_loads (parse_datetime : string -> result Z)
        (raw : list string) (dates : list Z) (ss ps cs : list string)
        (qs : list Z) (us : list Q) (n : nat) :
  to_datetime parse_datetime raw = Ok dates ->
  List.length raw = n -> List.length ss = n -> List.length ps = n ->
  List.length cs = n -> List.length qs = n -> List.length us = n ->
  exists rows,
    bind (handle_upload parse_datetime
            (mkCsv (Some raw) (Some ss) (Some ps) (Some cs) (Some qs) (Some us)))
         frame_rows = Ok rows /\
    List.length rows = n /\
    map date rows = dates /\ map sku rows = ss /\ map product_name rows = ps /\
    map category rows = cs /\ map quantity_sold rows = qs /\ map unit_price rows = us /\
    Forall (fun r => total_revenue r = (inject_Z (quantity_sold r) * unit_price r)%Q) rows.
Proof.
  intros Ht Hraw Hs Hp Hc Hq Hu.
  assert (Hd : List.length dates = n).
  { apply to_datetime_cells in Ht. apply Forall2_length in Ht. congruence. }
  unfold handle_upload. simpl. rewrite Ht. simpl. unfold frame_rows. simpl.
  eexists. split; [reflexivity|].
  assert (Hm : List.length (col_mul qs us) = n)
    by (rewrite col_mul_length; congruence).
  destruct (zip_rows_columns n dates ss ps cs qs us (col_mul qs us) Hd Hs Hp Hc Hq Hu Hm)
    as (E1 & E2 & E3 & E4 & E5 & E6 & E7).
  split; [|repeat split; try assumption; apply zip_rows_revenue].
  rewrite <- (length_map date), E1. exact Hd.
Qed.

Lemma complete_upload_loads_witness :
  exists rows,
    bind (handle_upload (fun _ => Ok 0)
            (mkCsv (Some ["2024-01-01"%string]) (Some ["A"%string]) (Some ["Tea"%string])
                   (Some ["Beverages"%string]) (Some [3]) (Some [2#1])))
         frame_rows = Ok rows /\
    List.length rows = 1%nat /\
    map date rows = [0] /\ map sku rows = ["A"%string] /\
    map product_name rows = ["Tea"%string] /\
    map category rows = ["Beverages"%string] /\ map quantity_sold rows = [3] /\
    map unit_price rows = [2#1] /\
    Forall (fun r => total_revenue r = (inject_Z (quantity_sold r) * unit_price r)%Q) rows.
Proof.
  apply (complete_upload_loads (fun _ => Ok 0) ["2024-01-01"%string] [0]
           ["A"%string] ["Tea"%string] ["Beverages"%string] [3] [2#1] 1);
    reflexivity.
Defined.



(** ** groupby, continued: what a group holds *)

Lemma groupby_snoc {K : Type} (cmp : K -> K -> comparison) (key : TransactionRecord -> K)
      (df : DataFrame) (r : TransactionRecord) :
  groupby cmp key (df ++ [r]) = insert_group cmp key r (groupby cmp key df).
Proof. unfold groupby. rewrite fold_left_app. reflexivity. Qed.

Section GroupContent.
Context {K : Type} (cmp : K -> K -> comparison) (key : TransactionRecord -> K).
Hypothesis cmp_trans : forall a b c, cmp a b = Lt -> cmp b c = Lt -> cmp a c = Lt.
Hypothesis cmp_gt : forall a b, cmp a b = Gt -> cmp b a = Lt.
Hypothesis cmp_eq : forall a b, cmp a b = Eq -> a = b.
Hypothesis cmp_refl : forall a, cmp a a = Eq.

(** The rows of key [k], by the comparison the grouping uses. *)
Let has_key (k : K) (r : TransactionRecord) : bool :=
  match cmp (key r) k with Eq => true | _ => false end.

Lemma has_key_true (k : K) (r : TransactionRecord) : has_key k r = true <-> key r = k.
Proof.
  unfold has_key. split.
  - destruct (cmp (key r) k) eqn:E; try discriminate. intros _. apply cmp_eq. exact E.
  - intros <-. rewrite cmp_refl. reflexivity.
Qed.

Lemma insert_group_In (r : TransactionRecord) gs (k : K) (rs' : list TransactionRecord) :
  keys_ascending cmp gs ->
  In (k, rs') (insert_group cmp key r gs) ->
  (k = key r /\ ((rs' = [r] /\ ~ In k (map fst gs)) \/
                 exists rs, In (k, rs) gs /\ rs' = rs ++ [r])) \/
  (k <> key r /\ In (k, rs') gs).
Proof.
  unfold keys_ascending. intros Hs.
  induction Hs as [|[k0 rs0] gs Hs IH Hall]; simpl.
  - intros [[= <- <-]|[]]. left. split; [reflexivity|]. left. split; [reflexivity|].
    intros [].
  - destruct (cmp (key r) k0) eqn:E.
    + apply cmp_eq in E. subst k0. intros [[= <- <-]|Hin].
      * left. split; [reflexivity|]. right. exists rs0. split; [now left | reflexivity].
      * right. split; [|now right].
        rewrite Forall_forall in Hall. specialize (Hall _ Hin). simpl in Hall.
        intros ->. rewrite cmp_refl in Hall. discriminate.
    + assert (Hnew : ~ In (key r) (map fst ((k0, rs0) :: gs))).
      { simpl. intros [Hk|Hin].
        - rewrite Hk, cmp_refl in E. discriminate.
        - apply in_map_iff in Hin. destruct Hin as [h [Hh Hin]].
          rewrite Forall_forall in Hall. specialize (Hall h Hin). simpl in Hall.
          rewrite Hh in Hall. pose proof (cmp_trans _ _ _ E Hall) as F.
          rewrite cmp_refl in F. discriminate. }
      intros [[= <- <-]|Hin].
      * left. split; [reflexivity|]. left. split; [reflexivity | exact Hnew].
      * right. split; [|exact Hin].
        intros ->. apply Hnew. apply (in_map fst) in Hin. exact Hin.
    + intros [[= <- <-]|Hin].
      * right. split; [|now left]. intros ->. rewrite cmp_refl in E. discriminate.
      * destruct (IH Hin) as [[-> [[-> Hn]|[rs [Hrs ->]]]]|[Hne Hin']].
        -- left. split; [reflexivity|]. left. split; [reflexivity|].
           simpl. intros [Hk|Hk]; [|contradiction].
           rewrite Hk, cmp_refl in E. discriminate.
        -- left. split; [reflexivity|]. right. exists rs. split; [now right | reflexivity].
        -- right. split; [exact Hne | now right].
Qed.

(** Each group holds exactly the rows of its key, in frame order. *)
Lemma groupby_content (df : DataFrame) (k : K) (rs : list TransactionRecord) :
  In (k, rs) (groupby cmp key df) -> rs = filter (has_key k) df.
Proof.
  revert k rs. induction df as [|r df IH] using rev_ind; intros k rs.
  - intros [].
  - rewrite groupby_snoc. intros Hin.
    apply insert_group_In in Hin;
      [|apply groupby_ascending; assumption].
    rewrite filter_app. simpl.
    destruct Hin as [[-> [[-> Hn]|[rs0 [Hrs ->]]]]|[Hne Hin]].
    + rewrite (proj2 (has_key_true (key r) r) eq_refl).
      rewrite filter_none; [reflexivity|].
      intros x Hx. apply not_true_is_false. rewrite has_key_true. intros Hk.
      apply Hn. apply groupby_keys; [exact cmp_eq|].
      rewrite <- Hk. apply in_map. exact Hx.
    + rewrite (proj2 (has_key_true (key r) r) eq_refl).
      rewrite (IH _ _ Hrs). reflexivity.
    + assert (E : has_key k r = false).
      { apply not_true_is_false. rewrite has_key_true. congruence. }
      rewrite E, app_nil_r. apply IH. exact Hin.
Qed.
End GroupContent.

(** ** SKU aggregator, continued *)

Lemma sku_group_content (df : DataFrame) (k : group_key) (rs : list TransactionRecord) :
  In (k, rs) (groupby key_compare key_of df) -> rs = rows_of_key k df.
Proof.
  intros Hin.
  rewrite (groupby_content key_compare key_of key_compare_trans key_compare_gt
             key_compare_eq key_compare_refl df k rs Hin).
  unfold rows_of_key. apply filter_ext. intros r.
  destruct (key_dec (key_of r) k) as [->|Hne].
  - rewrite key_compare_refl. reflexivity.
  - destruct (key_compare (key_of r) k) eqn:E; try reflexivity.
    apply key_compare_eq in E. contradiction.
Qed.

Lemma metrics_row_group (df : DataFrame) (m : SkuMetrics) :
  In m (calculate_sku_metrics df) ->
  rows_of_key (metrics_key m) df <> [] /\
  m = aggregate (metrics_key m, rows_of_key (metrics_key m) df).
Proof.
  unfold calculate_sku_metrics. intros Hin.
  apply in_map_iff in Hin. destruct Hin as [[k rs] [<- Hin]].
  rewrite aggregate_key. simpl.
  pose proof (sku_group_content df k rs Hin) as E.
  pose proof (groupby_sound key_compare key_of df key_compare_eq) as Hs.
  unfold groups_sound in Hs. rewrite Forall_forall in Hs.
  destruct (Hs _ Hin) as [Hne _]. simpl in Hne.
  rewrite <- E. split; [exact Hne | reflexivity].
Qed.

(** X7: every row of the aggregator sums up exactly the rows of the frame
    that carry its (sku, product_name, category), and there is at least
    one such row. *)
Theorem metrics_row_content (df : DataFrame) (m : SkuMetrics) :
  In m (calculate_sku_metrics df) ->
  let rs := rows_of_key (metrics_key m) df in
  rs <> [] /\
  total_quantity m = sumZ (map quantity_sold rs) /\
  m_total_revenue m = sumQ (map total_revenue rs) /\
  avg_unit_price m = mean (map unit_price rs) /\
  days_with_sales m = nunique (map date rs).
Proof.
  intros Hin rs. destruct (metrics_row_group df m Hin) as [Hne E].
  fold rs in Hne, E. split; [exact Hne|].
  destruct (metrics_key m) as [[s p] c]. rewrite E. simpl. repeat split.
Qed.

Lemma metrics_row_content_witness :
  let df := [mkRecord 0 "A" "Tea" "Beverages" 10 (2#1) (20#1);
             mkRecord 0 "B" "Mug" "Home" 1 (100#1) (100#1);
             mkRecord 0 "A" "Tea" "Beverages" 5 (2#1) (10#1)] in
  let m := aggregate (("A", "Tea", "Beverages")%string, rows_of_key ("A", "Tea", "Beverages")%string df) in
  total_quantity m = sumZ (map quantity_sold (rows_of_key (metrics_key m) df)).
Proof.
  intros df m.
  assert (Hin : In m (calculate_sku_metrics df)) by (vm_compute; left; reflexivity).
  exact (proj1 (proj2 (metrics_row_content df m Hin))).
Defined.

Lemma rows_of_key_incl (k : group_key) (df : DataFrame) (r : TransactionRecord) :
  In r (rows_of_key k df) -> In r df /\ key_of r = k.
Proof.
  unfold rows_of_key. intros H. apply filter_In in H. destruct H as [H1 H2].
  split; [exact H1|]. destruct (key_dec (key_of r) k); [assumption | discriminate].
Qed.

Lemma nodup_length_le {A : Type} (dec : forall x y : A, {x = y} + {x <> y}) (l : list A) :
  (List.length (nodup dec l) <= List.length l)%nat.
Proof.
  induction l as [|x l IH]; simpl; [lia|].
  destruct (in_dec dec x l); simpl; lia.
Qed.

Lemma nodup_map_length_le (f : Z -> Z) (l : list Z) :
  (List.length (nodup Z.eq_dec (map f l)) <= List.length (nodup Z.eq_dec l))%nat.
Proof.
  rewrite <- (length_map f (nodup Z.eq_dec l)).
  apply NoDup_incl_length; [apply NoDup_nodup|].
  intros x Hx. apply nodup_In, in_map_iff in Hx. destruct Hx as [y [<- Hy]].
  apply in_map. apply nodup_In. exact Hy.
Qed.

(** X11: [days_with_sales] counts distinct timestamps: it is at least the
    number of distinct calendar days on which the group has a row and
    at most the number of rows of the group. *)
Theorem days_with_sales_bounds (df : DataFrame) (m : SkuMetrics) :
  In m (calculate_sku_metrics df) ->
  let rs := rows_of_key (metrics_key m) df in
  nunique (map (fun r => dt_date (date r)) rs) <= days_with_sales m
  <= Z.of_nat (List.length rs).
Proof.
  intros Hin rs. destruct (metrics_row_group df m Hin) as [_ E]. fold rs in E.
  destruct (metrics_key m) as [[s p] c]. rewrite E. simpl. unfold nunique. split.
  - rewrite <- (map_map date dt_date). apply Nat2Z.inj_le. apply nodup_map_length_le.
  - apply Nat2Z.inj_le. rewrite <- (length_map date rs). apply nodup_length_le.
Qed.

Lemma days_with_sales_bounds_witness :
  let df := [mkRecord 0 "A" "Tea" "Beverages" 10 (2#1) (20#1);
             mkRecord 3600000000000 "A" "Tea" "Beverages" 5 (2#1) (10#1)] in
  let m := aggregate (("A", "Tea", "Beverages")%string, df) in
  nunique (map (fun r => dt_date (date r)) (rows_of_key (metrics_key m) df))
  <= days_with_sales m
  <= Z.of_nat (List.length (rows_of_key (metrics_key m) df)).
Proof.
  intros df m. apply (days_with_sales_bounds df m). vm_compute. left. reflexivity.
Defined.

Lemma sumZ_pos (l : list Z) : l <> [] -> Forall (fun x => 0 < x) l -> 0 < sumZ l.
Proof.
  intros Hne H. induction H as [|x l Hx Hl IH]; [congruence|]. simpl.
  destruct l as [|y l]; [simpl; lia|].
  assert (0 < sumZ (y :: l)) by (apply IH; discriminate). lia.
Qed.

Lemma positive_quantity_row (df : DataFrame) (m : SkuMetrics) :
  (forall r, In r df -> 0 < quantity_sold r) ->
  In m (calculate_sku_metrics df) ->
  0 < total_quantity m /\
  avg_order_value m = Finite (m_total_revenue m / inject_Z (total_quantity m)).
Proof.
  intros Hpos Hin. destruct (metrics_row_group df m Hin) as [Hne E].
  set (rs := rows_of_key (metrics_key m) df) in *.
  assert (Hq : 0 < sumZ (map quantity_sold rs)).
  { apply sumZ_pos.
    - destruct rs; [congruence | discriminate].
    - rewrite Forall_forall. intros q Hq. apply in_map_iff in Hq.
      destruct Hq as [r [<- Hr]]. apply Hpos. apply (rows_of_key_incl _ _ _ Hr). }
  destruct (metrics_key m) as [[s p] c]. rewrite E. simpl. split; [exact Hq|].
  apply fdiv_nonzero, inject_Z_nonzero. lia.
Qed.



(** ** Ranker, continued *)

Lemma head_prefix {A : Type} (n : Z) (l : list A) :
  exists c, head n l = firstn c l.
Proof. unfold head. destruct (0 <=? n); eexists; reflexivity. Qed.

Lemma NoDup_firstn {A : Type} (n : nat) (l : list A) : NoDup l -> NoDup (firstn n l).
Proof.
  intros H. rewrite <- (firstn_skipn n l) in H. apply NoDup_app_remove_r in H. exact H.
Qed.

Lemma StronglySorted_app_inv {A : Type} (R : A -> A -> Prop) (l1 l2 : list A) :
  StronglySorted R (l1 ++ l2) -> forall a b, In a l1 -> In b l2 -> R a b.
Proof.
  induction l1 as [|x l1 IH]; simpl; intros H a b Ha Hb; [destruct Ha|].
  inversion H as [|? ? Hs Hall]; subst. destruct Ha as [<-|Ha].
  - rewrite Forall_forall in Hall. apply Hall. apply in_or_app. now right.
  - apply IH; assumption.
Qed.


(** X16: the ranking shows rows of the aggregator only, and none of them
    twice, whatever the number asked for. *)
Theorem ranking_rows_are_metrics (srt : Sorter) (df : DataFrame) (metric : Metric)
        (top_n : Z) :
  sorter_ok srt ->
  incl (top_skus srt metric top_n df) (calculate_sku_metrics df) /\
  NoDup (map metrics_key (top_skus srt metric top_n df)).
Proof.
  intros Hsrt. unfold top_skus. rewrite sku_metrics_sorted_eq.
  set (rows := calculate_sku_metrics df).
  pose proof (sort_values_desc_perm srt Hsrt (metric_column metric) rows) as Hp.
  destruct (head_prefix top_n (sort_values_desc srt (metric_column metric) rows))
    as [c ->].
  split.
  - intros m Hm. apply firstn_incl in Hm. apply (Permutation_in _ Hp). exact Hm.
  - rewrite <- firstn_map. apply NoDup_firstn.
    apply (Permutation_NoDup (Permutation_map metrics_key (Permutation_sym Hp))).
    apply metrics_keys_NoDup.
Qed.

Lemma ranking_rows_are_metrics_witness :
  NoDup (map metrics_key
             (top_skus stable_sort TotalRevenue 1
                [mkRecord 0 "A" "Tea" "Beverages" 10 (2#1) (20#1);
                 mkRecord 0 "B" "Mug" "Home" 1 (100#1) (100#1)])).
Proof.
  apply (ranking_rows_are_metrics stable_sort _ TotalRevenue 1 stable_sort_ok).
Defined.

(** X17: the rows left out of the top N rank no better than any row listed:
    the ranking and the rows left out make up the aggregator's rows,
    and each listed row ranks before each row left out. *)
Theorem top_n_dominates_rest (srt : Sorter) (df : DataFrame) (metric : Metric)
        (top_n : Z) :
  sorter_ok srt -> 0 <= top_n ->
  exists rest,
    Permutation (top_skus srt metric top_n df ++ rest) (calculate_sku_metrics df) /\
    forall a b, In a (top_skus srt metric top_n df) -> In b rest ->
                ranks_before (metric_column metric a) (metric_column metric b) = true.
Proof.
  intros Hsrt Hn. unfold top_skus. rewrite head_firstn by exact Hn.
  rewrite sku_metrics_sorted_eq.
  set (sorted := sort_values_desc srt (metric_column metric) (calculate_sku_metrics df)).
  exists (skipn (Z.to_nat top_n) sorted). split.
  - rewrite firstn_skipn. apply sort_values_desc_perm. exact Hsrt.
  - apply StronglySorted_app_inv. rewrite firstn_skipn.
    apply sort_values_desc_ranked. exact Hsrt.
Qed.

Lemma top_n_dominates_rest_witness :
  exists rest,
    Permutation
      (top_skus stable_sort TotalRevenue 1
         [mkRecord 0 "A" "Tea" "Beverages" 10 (2#1) (20#1);
          mkRecord 0 "B" "Mug" "Home" 1 (100#1) (100#1)] ++ rest)
      (calculate_sku_metrics
         [mkRecord 0 "A" "Tea" "Beverages" 10 (2#1) (20#1);
          mkRecord 0 "B" "Mug" "Home" 1 (100#1) (100#1)]) /\
    forall a b,
      In a (top_skus stable_sort TotalRevenue 1
              [mkRecord 0 "A" "Tea" "Beverages" 10 (2#1) (20#1);
               mkRecord 0 "B" "Mug" "Home" 1 (100#1) (100#1)]) ->
      In b rest ->
      ranks_before (metric_column TotalRevenue a) (metric_column TotalRevenue b) = true.
Proof.
  apply (top_n_dominates_rest stable_sort _ TotalRevenue 1 stable_sort_ok). lia.
Defined.

(** X18: ranked by revenue or by quantity, the listed values never increase
    down the table: these two columns are never undefined. *)
Theorem revenue_and_quantity_rankings_descend (srt : Sorter) (df : DataFrame) (top_n : Z) :
  sorter_ok srt ->
  StronglySorted (fun a b => (m_total_revenue b <= m_total_revenue a)%Q)
                 (top_skus srt TotalRevenue top_n df) /\
  StronglySorted (fun a b => total_quantity b <= total_quantity a)
                 (top_skus srt QuantitySold top_n df).
Proof.
  intros Hsrt. unfold top_skus. rewrite !sku_metrics_sorted_eq.
  split.
  - destruct (head_prefix top_n (sort_values_desc srt (metric_column TotalRevenue)
                                   (calculate_sku_metrics df))) as [c ->].
    apply StronglySorted_firstn.
    eapply StronglySorted_impl; [|apply sort_values_desc_ranked; exact Hsrt].
    intros a b _ _ H. unfold ranks_before in H. simpl in H.
    apply Qle_bool_iff. exact H.
  - destruct (head_prefix top_n (sort_values_desc srt (metric_column QuantitySold)
                                   (calculate_sku_metrics df))) as [c ->].
    apply StronglySorted_firstn.
    eapply StronglySorted_impl; [|apply sort_values_desc_ranked; exact Hsrt].
    intros a b _ _ H. unfold ranks_before in H. simpl in H.
    apply Qle_bool_iff in H. rewrite <- Zle_Qle in H. exact H.
Qed.

Lemma revenue_and_quantity_rankings_descend_witness :
  StronglySorted (fun a b => (m_total_revenue b <= m_total_revenue a)%Q)
    (top_skus stable_sort TotalRevenue 5
       [mkRecord 0 "A" "Tea" "Beverages" 10 (2#1) (20#1);
        mkRecord 0 "B" "Mug" "Home" 1 (100#1) (100#1)]).
Proof.
  apply (revenue_and_quantity_rankings_descend stable_sort _ 5 stable_sort_ok).
Defined.



(** ** Summary cards *)

(** X20: the page-wide average order value is never undefined: it is the
    quotient when the total quantity is positive and 0 otherwise, also
    when the total is negative. *)
Theorem overall_aov_always_finite (df : DataFrame) :
  let revenue := sumQ (map total_revenue df) in
  let quantity := sumZ (map quantity_sold df) in
  (0 < quantity -> overall_aov df = Finite (revenue / inject_Z quantity)) /\
  (quantity <= 0 -> overall_aov df = Finite 0) /\
  exists q, overall_aov df = Finite q.
Proof.
  intros revenue quantity. unfold overall_aov. fold revenue quantity.
  destruct (0 <? quantity) eqn:E.
  - apply Z.ltb_lt in E.
    assert (H : fdiv revenue (inject_Z quantity) = Finite (revenue / inject_Z quantity)).
    { apply fdiv_nonzero, inject_Z_nonzero. lia. }
    rewrite H. split; [reflexivity|]. split; [lia|]. eexists. reflexivity.
  - apply Z.ltb_ge in E. split; [lia|]. split; [reflexivity|]. eexists. reflexivity.
Qed.

Lemma overall_aov_always_finite_witness :
  overall_aov [mkRecord 0 "A" "Tea" "Beverages" (-2) (5#1) (-10#1)] = Finite 0.
Proof.
  apply (proj1 (proj2 (overall_aov_always_finite
                         [mkRecord 0 "A" "Tea" "Beverages" (-2) (5#1) (-10#1)]))).
  simpl. lia.
Defined.

(** ** Category and daily aggregators *)



(** ** Sums of rearranged columns *)

Lemma sumQ_perm (l l' : list Q) : Permutation l l' -> (sumQ l == sumQ l')%Q.
Proof.
  induction 1 as [|x l l' _ IH|x y l|l l' l'' _ IH1 _ IH2]; simpl.
  - reflexivity.
  - rewrite IH. reflexivity.
  - ring.
  - rewrite IH1. exact IH2.
Qed.

(** ** Sample data *)

Lemma NoDup_map_inj_in {A B : Type} (f : A -> B) (l : list A) (a b : A) :
  NoDup (map f l) -> In a l -> In b l -> f a = f b -> a = b.
Proof.
  induction l as [|x l IH]; simpl; intros Hnd Ha Hb E; [destruct Ha|].
  inversion Hnd as [|? ? Hx Hl]; subst.
  destruct Ha as [<-|Ha], Hb as [<-|Hb]; try reflexivity.
  - exfalso. apply Hx. rewrite E. apply in_map. exact Hb.
  - exfalso. apply Hx. rewrite <- E. apply in_map. exact Ha.
  - apply IH; assumption.
Qed.

Lemma catalogue_skus_distinct : NoDup (map (fun k : group_key => fst (fst k)) catalogue).
Proof.
  assert (E : nodup string_dec (map (fun k : group_key => fst (fst k)) catalogue)
              = map (fun k : group_key => fst (fst k)) catalogue)
    by (vm_compute; reflexivity).
  rewrite <- E. apply NoDup_nodup.
Qed.

Lemma flat_map_length_le {A B : Type} (f : A -> list B) (c : nat) (l : list A) :
  (forall x, In x l -> (List.length (f x) <= c)%nat) ->
  (List.length (flat_map f l) <= c * List.length l)%nat.
Proof.
  induction l as [|x l IH]; simpl; intros H; [lia|].
  rewrite length_app.
  assert (List.length (f x) <= c)%nat by (apply H; now left).
  assert (List.length (flat_map f l) <= c * List.length l)%nat
    by (apply IH; intros y Hy; apply H; now right).
  lia.
Qed.

Section GeneratorFacts.
Variable quantity_draw : Z -> nat -> Z.
Variable price_draw : Z -> nat -> Q.
Variable round2 : Q -> Q.

Lemma day_rows_In (d : Z) (r : TransactionRecord) :
  In r (day_rows quantity_draw price_draw round2 d) ->
  date r = d /\ 0 < quantity_sold r /\ In (key_of r) catalogue /\
  exists i, quantity_sold r = quantity_draw d i /\
            unit_price r = round2 (price_draw d i) /\
            total_revenue r = round2 (inject_Z (quantity_draw d i) * price_draw d i).
Proof.
  unfold day_rows, catalogue. intros H. apply in_flat_map in H.
  destruct H as [[i s] [Hin Hr]].
  destruct (0 <? quantity_draw d i) eqn:E; [|destruct Hr].
  destruct Hr as [<-|[]]. simpl. apply Z.ltb_lt in E.
  split; [reflexivity|]. split; [exact E|]. split.
  - unfold key_of. simpl.
    apply (in_map (fun '(i, s) => (s, nth i product_names EmptyString,
                                   nth i categories EmptyString)) _ _ Hin).
  - exists i. repeat split.
Qed.

Lemma sample_dates_In (start_date d : Z) :
  In d (sample_dates start_date) ->
  start_date <= d <= start_date + 180 * ns_per_day.
Proof.
  unfold sample_dates. intros H. apply in_map_iff in H. destruct H as [j [<- Hj]].
  apply in_seq in Hj. unfold ns_per_day. lia.
Qed.

Lemma sample_consistent (start_date : Z) :
  consistent (generate_sample_data quantity_draw price_draw round2 start_date).
Proof.
  intros r1 r2 H1 H2 E. unfold generate_sample_data in *.
  apply in_flat_map in H1. destruct H1 as [d1 [_ H1]].
  apply in_flat_map in H2. destruct H2 as [d2 [_ H2]].
  apply day_rows_In in H1. destruct H1 as (_ & _ & K1 & _).
  apply day_rows_In in H2. destruct H2 as (_ & _ & K2 & _).
  assert (Ek : key_of r1 = key_of r2).
  { apply (NoDup_map_inj_in (fun k : group_key => fst (fst k)) catalogue);
      [apply catalogue_skus_distinct | assumption | assumption | exact E]. }
  unfold key_of in Ek. split; congruence.
Qed.

Lemma sample_positive (start_date : Z) (r : TransactionRecord) :
  In r (generate_sample_data quantity_draw price_draw round2 start_date) ->
  0 < quantity_sold r.
Proof.
  unfold generate_sample_data. intros H. apply in_flat_map in H.
  destruct H as [d [_ H]]. apply day_rows_In in H. tauto.
Qed.

(** X26: whatever the random draws, the generated frame spans the 181 days
    from its start, holds at most one row per day and catalogue entry,
    only rows with a positive quantity and a sku of the catalogue, and
    gives each sku one product name and one category. *)
Theorem sample_data_invariants (start_date : Z) :
  let df := generate_sample_data quantity_draw price_draw round2 start_date in
  (forall r, In r df ->
             0 < quantity_sold r /\ In (sku r) skus /\
             start_date <= date r <= start_date + 180 * ns_per_day) /\
  consistent df /\
  (List.length df <= 181 * 15)%nat.
Proof.
  intros df. split; [|split].
  - intros r Hr. unfold df, generate_sample_data in Hr. apply in_flat_map in Hr.
    destruct Hr as [d [Hd Hr]]. apply day_rows_In in Hr.
    destruct Hr as (Ed & Hq & Hk & _). split; [exact Hq|]. split.
    + unfold catalogue in Hk. apply in_map_iff in Hk. destruct Hk as [[i s] [E Hin]].
      unfold key_of in E. injection E as E _ _. rewrite <- E.
      unfold enumerate in Hin. apply in_combine_r in Hin. exact Hin.
    + rewrite Ed. apply sample_dates_In. exact Hd.
  - apply sample_consistent.
  - unfold df, generate_sample_data.
    replace (181 * 15)%nat with (15 * List.length (sample_dates start_date))%nat
      by (unfold sample_dates; rewrite length_map, length_seq; reflexivity).
    apply flat_map_length_le. intros d _. unfold day_rows.
    replace 15%nat with (1 * List.length (enumerate skus))%nat by reflexivity.
    apply flat_map_length_le. intros [i s] _.
    destruct (0 <? quantity_draw d i); simpl; lia.
Qed.

(** X27: on the sample data the aggregator has one row per sku, at most 15
    in all, and every row has a defined average order value. *)
Theorem sample_metrics_well_defined (start_date : Z) :
  let rows := calculate_sku_metrics
                (generate_sample_data quantity_draw price_draw round2 start_date) in
  (List.length rows <= 15)%nat /\
  NoDup (map m_sku rows) /\
  forall m, In m rows ->
            0 < total_quantity m /\
            avg_order_value m = Finite (m_total_revenue m / inject_Z (total_quantity m)).
Proof.
  intros rows. unfold rows.
  set (df := generate_sample_data quantity_draw price_draw round2 start_date).
  pose proof (one_row_per_sku df (sample_consistent start_date)) as Hp.
  assert (Hnd : NoDup (map m_sku (calculate_sku_metrics df))).
  { apply (Permutation_NoDup (Permutation_sym Hp)). apply NoDup_nodup. }
  split; [|split; [exact Hnd|]].
  - rewrite <- (length_map m_sku).
    change 15%nat with (List.length skus).
    apply NoDup_incl_length; [exact Hnd|].
    intros s Hs. apply (Permutation_in _ Hp) in Hs. unfold distinct_skus in Hs.
    apply nodup_In, in_map_iff in Hs. destruct Hs as [r [<- Hr]].
    unfold df, generate_sample_data in Hr. apply in_flat_map in Hr.
    destruct Hr as [d [_ Hr]]. apply day_rows_In in Hr.
    destruct Hr as (_ & _ & Hk & _).
    unfold catalogue in Hk. apply in_map_iff in Hk. destruct Hk as [[i s] [E Hin]].
    unfold key_of in E. injection E as E _ _. rewrite <- E.
    unfold enumerate in Hin. apply in_combine_r in Hin. exact Hin.
  - intros m Hm. apply (positive_quantity_row df m); [|exact Hm].
    intros r Hr. apply (sample_positive start_date r Hr).
Qed.
End GeneratorFacts.


Lemma zero_quantity_never_finite_witness :
  let df := [mkRecord 0 "A" "Tea" "Beverages" 2 (5#1) (10#1);
             mkRecord 0 "A" "Tea" "Beverages" (-2) (3#1) (-6#1)] in
  avg_order_value (aggregate (("A", "Tea", "Beverages")%string, df)) <> Finite 0.
Proof.
  intros df. apply (zero_quantity_never_finite df).
  - vm_compute. left. reflexivity.
  - reflexivity.
Defined.

(** * Frames with blank cells *)

(** ** groupby with dropped rows *)

Lemma present_app {A : Type} (l1 l2 : list (option A)) :
  Csv.present (l1 ++ l2) = Csv.present l1 ++ Csv.present l2.
Proof. unfold Csv.present. apply flat_map_app. Qed.

Lemma present_In {A : Type} (col : list (option A)) (x : A) :
  In x (Csv.present col) <-> In (Some x) col.
Proof.
  unfold Csv.present. rewrite in_flat_map. split.
  - intros [[y|] [Hin Hx]]; [|destruct Hx]. destruct Hx as [<-|[]]. exact Hin.
  - intros H. exists (Some x). split; [exact H | now left].
Qed.

Section CsvGroupFacts.
Context {num K : Type} (cmp : K -> K -> comparison) (key : Csv.Row num -> option K).
Hypothesis cmp_trans : forall a b c, cmp a b = Lt -> cmp b c = Lt -> cmp a c = Lt.
Hypothesis cmp_gt : forall a b, cmp a b = Gt -> cmp b a = Lt.
Hypothesis cmp_eq : forall a b, cmp a b = Eq -> a = b.
Hypothesis cmp_refl : forall a, cmp a a = Eq.

Let ascending_keys (gs : list (K * list (Csv.Row num))) : Prop :=
  StronglySorted (fun g h => cmp (fst g) (fst h) = Lt) gs.
Let keeps (k : K) (r : Csv.Row num) : bool :=
  match key r with
  | Some k' => match cmp k' k with Eq => true | _ => false end
  | None => false
  end.

Lemma csv_groupby_snoc (df : list (Csv.Row num)) (r : Csv.Row num) :
  Csv.groupby cmp key (df ++ [r]) = Csv.add_row cmp key (Csv.groupby cmp key df) r.
Proof. unfold Csv.groupby. rewrite fold_left_app. reflexivity. Qed.

Lemma keeps_true (k : K) (r : Csv.Row num) : keeps k r = true <-> key r = Some k.
Proof.
  unfold keeps. destruct (key r) as [k'|]; [|split; discriminate].
  split.
  - destruct (cmp k' k) eqn:E; try discriminate. intros _. f_equal. apply cmp_eq. exact E.
  - intros [= ->]. rewrite cmp_refl. reflexivity.
Qed.

Lemma csv_insert_keys (k : K) (r : Csv.Row num) (gs : list (K * list (Csv.Row num))) (k' : K) :
  In k' (map fst (Csv.insert_group cmp k r gs)) <-> k' = k \/ In k' (map fst gs).
Proof.
  induction gs as [|[k0 rs] gs IH]; simpl.
  - intuition.
  - destruct (cmp k k0) eqn:E; simpl.
    + apply cmp_eq in E. subst k0. intuition.
    + intuition.
    + rewrite IH. intuition.
Qed.

Lemma csv_groupby_keys (df : list (Csv.Row num)) (k : K) :
  In k (map fst (Csv.groupby cmp key df)) <-> exists r, In r df /\ key r = Some k.
Proof.
  induction df as [|r df IH] using rev_ind.
  - simpl. split; [intros [] | intros [r [[] _]]].
  - rewrite csv_groupby_snoc. unfold Csv.add_row.
    destruct (key r) as [kr|] eqn:Er.
    + rewrite csv_insert_keys, IH. split.
      * intros [->|[x [Hx Hk]]].
        -- exists r. split; [apply in_or_app; right; now left | exact Er].
        -- exists x. split; [apply in_or_app; now left | exact Hk].
      * intros [x [Hx Hk]]. apply in_app_or in Hx. destruct Hx as [Hx|[<-|[]]].
        -- right. exists x. split; assumption.
        -- left. congruence.
    + rewrite IH. split.
      * intros [x [Hx Hk]]. exists x. split; [apply in_or_app; now left | exact Hk].
      * intros [x [Hx Hk]]. apply in_app_or in Hx. destruct Hx as [Hx|[<-|[]]].
        -- exists x. split; assumption.
        -- congruence.
Qed.

Lemma csv_insert_ascending (k : K) (r : Csv.Row num) (gs : list (K * list (Csv.Row num))) :
  ascending_keys gs -> ascending_keys (Csv.insert_group cmp k r gs).
Proof.
  unfold ascending_keys. induction gs as [|[k0 rs] gs IH]; simpl; intros H.
  - repeat constructor.
  - inversion H as [|g gs' Hs Hall]; subst.
    destruct (cmp k k0) eqn:E.
    + constructor; [exact Hs | exact Hall].
    + constructor; [exact H|]. constructor; [exact E|].
      eapply Forall_impl; [|exact Hall]. intros h Hh. simpl in *.
      eapply cmp_trans; eassumption.
    + constructor; [apply IH; exact Hs|].
      rewrite Forall_forall in *. intros h Hh.
      assert (Hin : In (fst h) (map fst (Csv.insert_group cmp k r gs)))
        by (apply in_map; exact Hh).
      apply csv_insert_keys in Hin. destruct Hin as [Heq|Hin].
      * simpl. rewrite Heq. apply cmp_gt. exact E.
      * apply in_map_iff in Hin. destruct Hin as [h' [Hf Hh']].
        rewrite <- Hf. apply Hall. exact Hh'.
Qed.

Lemma csv_groupby_ascending (df : list (Csv.Row num)) :
  ascending_keys (Csv.groupby cmp key df).
Proof.
  induction df as [|r df IH] using rev_ind; [constructor|].
  rewrite csv_groupby_snoc. unfold Csv.add_row.
  destruct (key r); [apply csv_insert_ascending|]; exact IH.
Qed.

Lemma csv_insert_rows (k : K) (r : Csv.Row num) (gs : list (K * list (Csv.Row num))) :
  Permutation (List.concat (map snd (Csv.insert_group cmp k r gs)))
              (r :: List.concat (map snd gs)).
Proof.
  induction gs as [|[k0 rs] gs IH]; simpl.
  - reflexivity.
  - destruct (cmp k k0); simpl.
    + rewrite <- app_assoc. simpl.
      apply Permutation_sym, Permutation_middle.
    + reflexivity.
    + rewrite IH. apply Permutation_sym, Permutation_middle.
Qed.

(** The groups hold the rows whose key is complete, each of them once,
    and no other row. *)
Lemma csv_groupby_rows (df : list (Csv.Row num)) :
  Permutation (List.concat (map snd (Csv.groupby cmp key df)))
              (filter (fun r => Csv.is_some (key r)) df).
Proof.
  induction df as [|r df IH] using rev_ind; [constructor|].
  rewrite csv_groupby_snoc, filter_app. unfold Csv.add_row. simpl.
  destruct (key r) as [k|]; simpl.
  - rewrite csv_insert_rows, IH. apply Permutation_cons_append.
  - rewrite app_nil_r. exact IH.
Qed.

Lemma csv_insert_In (k : K) (r : Csv.Row num) (gs : list (K * list (Csv.Row num))) (k' : K)
      (rs' : list (Csv.Row num)) :
  ascending_keys gs ->
  In (k', rs') (Csv.insert_group cmp k r gs) ->
  (k' = k /\ ((rs' = [r] /\ ~ In k (map fst gs)) \/
               exists rs, In (k, rs) gs /\ rs' = rs ++ [r])) \/
  (k' <> k /\ In (k', rs') gs).
Proof.
  unfold ascending_keys. intros Hs.
  induction Hs as [|[k0 rs0] gs Hs IH Hall]; simpl.
  - intros [[= <- <-]|[]]. left. split; [reflexivity|]. left. split; [reflexivity|].
    intros [].
  - destruct (cmp k k0) eqn:E.
    + apply cmp_eq in E. subst k0. intros [[= <- <-]|Hin].
      * left. split; [reflexivity|]. right. exists rs0. split; [now left | reflexivity].
      * right. split; [|now right].
        rewrite Forall_forall in Hall. specialize (Hall _ Hin). simpl in Hall.
        intros ->. rewrite cmp_refl in Hall. discriminate.
    + assert (Hnew : ~ In k (map fst ((k0, rs0) :: gs))).
      { simpl. intros [Hk|Hin].
        - rewrite Hk, cmp_refl in E. discriminate.
        - apply in_map_iff in Hin. destruct Hin as [h [Hh Hin]].
          rewrite Forall_forall in Hall. specialize (Hall h Hin). simpl in Hall.
          rewrite Hh in Hall. pose proof (cmp_trans _ _ _ E Hall) as F.
          rewrite cmp_refl in F. discriminate. }
      intros [[= <- <-]|Hin].
      * left. split; [reflexivity|]. left. split; [reflexivity | exact Hnew].
      * right. split; [|exact Hin].
        intros ->. apply Hnew. apply (in_map fst) in Hin. exact Hin.
    + intros [[= <- <-]|Hin].
      * right. split; [|now left]. intros ->. rewrite cmp_refl in E. discriminate.
      * destruct (IH Hin) as [[-> [[-> Hn]|[rs [Hrs ->]]]]|[Hne Hin']].
        -- left. split; [reflexivity|]. left. split; [reflexivity|].
           simpl. intros [Hk|Hk]; [|contradiction].
           rewrite Hk, cmp_refl in E. discriminate.
        -- left. split; [reflexivity|]. right. exists rs. split; [now right | reflexivity].
        -- right. split; [exact Hne | now right].
Qed.

(** Each group holds exactly the rows of its key, in frame order. *)
Lemma csv_groupby_content (df : list (Csv.Row num)) (k : K) (rs : list (Csv.Row num)) :
  In (k, rs) (Csv.groupby cmp key df) -> rs = filter (keeps k) df.
Proof.
  revert k rs. induction df as [|r df IH] using rev_ind; intros k rs.
  - intros [].
  - rewrite csv_groupby_snoc, filter_app. unfold Csv.add_row. simpl.
    destruct (key r) as [kr|] eqn:Er.
    + intros Hin. apply csv_insert_In in Hin; [|apply csv_groupby_ascending].
      destruct Hin as [[-> [[-> Hn]|[rs0 [Hrs ->]]]]|[Hne Hin]].
      * rewrite (proj2 (keeps_true kr r) Er).
        rewrite filter_none; [reflexivity|].
        intros x Hx. apply not_true_is_false. rewrite keeps_true. intros Hk.
        apply Hn. apply csv_groupby_keys. exists x. split; assumption.
      * rewrite (proj2 (keeps_true kr r) Er). rewrite (IH _ _ Hrs). reflexivity.
      * assert (E : keeps k r = false).
        { apply not_true_is_false. rewrite keeps_true. congruence. }
        rewrite E, app_nil_r. apply IH. exact Hin.
    + intros Hin.
      assert (E : keeps k r = false).
      { apply not_true_is_false. rewrite keeps_true. congruence. }
      rewrite E, app_nil_r. apply IH. exact Hin.
Qed.

(** No group is empty. *)
Lemma csv_groupby_nonempty (df : list (Csv.Row num)) (k : K) (rs : list (Csv.Row num)) :
  In (k, rs) (Csv.groupby cmp key df) -> rs <> [].
Proof.
  intros Hin. pose proof (csv_groupby_content df k rs Hin) as E.
  assert (Hk : In k (map fst (Csv.groupby cmp key df))) by (apply (in_map fst) in Hin; exact Hin).
  apply csv_groupby_keys in Hk. destruct Hk as [r [Hr Hkey]].
  assert (Hx : In r rs).
  { rewrite E. apply filter_In. split; [exact Hr | apply keeps_true; exact Hkey]. }
  intros ->. destruct Hx.
Qed.
End CsvGroupFacts.

(** ** SKU aggregator on frames with blank cells *)

Section CsvAggregator.
Context {num ratio : Type}.
Variable sum : list num -> num.
Variable mean : list num -> ratio.
Variable per_unit : num -> Z -> ratio.
Variable per_day : Z -> Z -> ratio.

Let metrics (df : list (Csv.Row num)) : list (Csv.SkuMetrics num ratio) :=
  Csv.calculate_sku_metrics sum mean per_unit per_day df.

Lemma csv_aggregate_key (g : group_key * list (Csv.Row num)) :
  Csv.metrics_key (Csv.aggregate sum mean per_unit per_day g) = fst g.
Proof. destruct g as [[[s p] c] rs]. reflexivity. Qed.

Lemma csv_metrics_keys (df : list (Csv.Row num)) :
  map Csv.metrics_key (metrics df) = map fst (Csv.groupby key_compare Csv.key_of df).
Proof.
  unfold metrics, Csv.calculate_sku_metrics. rewrite map_map.
  apply map_ext. apply csv_aggregate_key.
Qed.

Lemma csv_group_content (df : list (Csv.Row num)) (k : group_key)
      (rs : list (Csv.Row num)) :
  In (k, rs) (Csv.groupby key_compare Csv.key_of df) -> rs = rows_keyed k df.
Proof.
  intros Hin.
  rewrite (csv_groupby_content key_compare Csv.key_of key_compare_trans key_compare_gt
             key_compare_eq key_compare_refl df k rs Hin).
  unfold rows_keyed. apply filter_ext. intros r.
  destruct (Csv.key_of r) as [k'|]; [|reflexivity].
  destruct (key_dec k' k) as [->|Hne].
  - rewrite key_compare_refl. reflexivity.
  - destruct (key_compare k' k) eqn:E; try reflexivity.
    apply key_compare_eq in E. contradiction.
Qed.


(** A row of the table is the aggregate of the frame rows of its key,
    and there is such a row in the frame. *)
Lemma csv_metrics_row (df : list (Csv.Row num)) (m : Csv.SkuMetrics num ratio) :
  In m (metrics df) ->
  rows_keyed (Csv.metrics_key m) df <> [] /\
  m = Csv.aggregate sum mean per_unit per_day
        (Csv.metrics_key m, rows_keyed (Csv.metrics_key m) df).
Proof.
  unfold metrics, Csv.calculate_sku_metrics. intros Hin.
  apply in_map_iff in Hin. destruct Hin as [[k rs] [<- Hin]].
  rewrite csv_aggregate_key. simpl.
  rewrite <- (csv_group_content df k rs Hin). split; [|reflexivity].
  apply (csv_groupby_nonempty key_compare Csv.key_of key_compare_trans key_compare_gt
           key_compare_eq key_compare_refl df k rs Hin).
Qed.

Lemma csv_metrics_keys_NoDup (df : list (Csv.Row num)) :
  NoDup (map Csv.metrics_key (metrics df)).
Proof.
  rewrite csv_metrics_keys.
  pose proof (csv_groupby_ascending key_compare Csv.key_of key_compare_trans
                key_compare_gt key_compare_eq df) as Hs.
  induction Hs as [|g gs Hs IH Hall]; simpl; constructor; [|exact IH].
  intros Hin. apply in_map_iff in Hin. destruct Hin as [h [Hh Hin]].
  rewrite Forall_forall in Hall. specialize (Hall h Hin). rewrite Hh in Hall.
  rewrite key_compare_refl in Hall. discriminate.
Qed.

Lemma csv_metrics_keys_In (df : list (Csv.Row num)) (k : group_key) :
  In k (map Csv.metrics_key (metrics df)) <->
  exists r, In r df /\ Csv.key_of r = Some k.
Proof.
  rewrite csv_metrics_keys.
  apply (csv_groupby_keys key_compare Csv.key_of key_compare_eq).
Qed.

Lemma csv_df_filtered_pair (df : list (Csv.Row num)) (s e : Z) :
  Csv.df_filtered df [s; e] = dated_within s e df.
Proof.
  unfold Csv.df_filtered, dated_within, Csv.day_ge, Csv.day_le. rewrite !map_map.
  rewrite (select_mask_and_map
             (fun r => match option_map dt_date (Csv.date r) with
                       | Some v => s <=? v | None => false end)
             (fun r => match option_map dt_date (Csv.date r) with
                       | Some v => v <=? e | None => false end)).
  apply filter_ext. intros r. destruct (Csv.date r); reflexivity.
Qed.


Lemma present_dates_nonempty (rs : list (Csv.Row num)) :
  Csv.present (map Csv.date rs) <> [] <-> exists r, In r rs /\ Csv.date r <> None.
Proof.
  split.
  - intros H. destruct (Csv.present (map Csv.date rs)) as [|t l] eqn:E; [congruence|].
    assert (Hin : In t (Csv.present (map Csv.date rs))) by (rewrite E; now left).
    apply present_In, in_map_iff in Hin. destruct Hin as [r [Hr Hin]].
    exists r. split; [exact Hin | congruence].
  - intros [r [Hr Hd]] E. destruct (Csv.date r) as [t|] eqn:Et; [|congruence].
    assert (Hin : In t (Csv.present (map Csv.date rs))).
    { apply present_In. rewrite <- Et. apply in_map. exact Hr. }
    rewrite E in Hin. destruct Hin.
Qed.

End CsvAggregator.



(** ** Revenue on frames with blank cells *)

Lemma sumQ_concat_present (ls : list (list (Csv.Row Q))) :
  (sumQ (Csv.present (map Csv.total_revenue (List.concat ls)))
   == sumQ (map (fun l => sumQ (Csv.present (map Csv.total_revenue l))) ls))%Q.
Proof.
  induction ls as [|l ls IH]; simpl; [reflexivity|].
  rewrite map_app, present_app, sumQ_app, IH. reflexivity.
Qed.

Lemma present_perm {A : Type} (l l' : list (option A)) :
  Permutation l l' -> Permutation (Csv.present l) (Csv.present l').
Proof.
  induction 1 as [|x l l' _ IH|x y l|l l' l'' _ IH1 _ IH2]; simpl.
  - constructor.
  - apply Permutation_app_head. exact IH.
  - destruct x, y; simpl; try reflexivity. apply perm_swap.
  - eapply Permutation_trans; eassumption.
Qed.

Lemma exact_revenue_total (df : list (Csv.Row Q)) :
  (sumQ (map Csv.m_total_revenue (exact_metrics df))
   == sumQ (Csv.present (map Csv.total_revenue (keyed df))))%Q.
Proof.
  unfold exact_metrics, Csv.calculate_sku_metrics. rewrite map_map.
  assert (E : map (fun g => Csv.m_total_revenue
                              (Csv.aggregate sumQ mean
                                 (fun revenue quantity => fdiv revenue (inject_Z quantity))
                                 (fun quantity days => fdiv (inject_Z quantity) (inject_Z days)) g))
                  (Csv.groupby key_compare Csv.key_of df)
              = map (fun l => sumQ (Csv.present (map Csv.total_revenue l)))
                    (map snd (Csv.groupby key_compare Csv.key_of df))).
  { rewrite map_map. apply map_ext. intros [[[s p] c] rs]. reflexivity. }
  rewrite E, <- sumQ_concat_present.
  apply sumQ_perm, present_perm, Permutation_map.
  apply (csv_groupby_rows key_compare Csv.key_of df).
Qed.

(** C1, amended: the rows of the table split up the frame rows whose
    three key cells are present: no key is listed twice, every such
    frame row has its key listed, and each table row's revenue is the
    sum over exactly the frame rows of its key, so a frame row with a
    blank key cell counts nowhere.  In exact arithmetic the table
    revenues therefore add up to the revenue of those frame rows. *)
Theorem revenue_is_split_by_key :
  (forall (num ratio : Type) (sum : list num -> num) (mean : list num -> ratio)
          (per_unit : num -> Z -> ratio) (per_day : Z -> Z -> ratio)
          (df : list (Csv.Row num)),
      let rows := Csv.calculate_sku_metrics sum mean per_unit per_day df in
      NoDup (map Csv.metrics_key rows) /\
      (forall r k, In r df -> Csv.key_of r = Some k -> In k (map Csv.metrics_key rows)) /\
      (forall m, In m rows ->
                 Csv.m_total_revenue m
                 = sum (Csv.present (map Csv.total_revenue
                                         (rows_keyed (Csv.metrics_key m) df))))) /\
  (forall df : list (Csv.Row Q),
      (sumQ (map Csv.m_total_revenue (exact_metrics df))
       == sumQ (Csv.present (map Csv.total_revenue (keyed df))))%Q).
Proof.
  split; [|apply exact_revenue_total].
  intros num ratio sum mean per_unit per_day df rows. split; [|split].
  - apply csv_metrics_keys_NoDup.
  - intros r k Hr Hk. apply csv_metrics_keys_In. exists r. split; assumption.
  - intros m Hm. destruct (csv_metrics_row sum mean per_unit per_day df m Hm) as [_ E].
    destruct (Csv.metrics_key m) as [[s p] c]. rewrite E at 1. reflexivity.
Qed.

(** C1, as stated, fails twice over: a row with a blank category is in
    the total but in no row of the table; and on complete rows of
    revenue 0.1, 0.4, 0.1 for skus A, B, A the floats add up to 0.6 in
    frame order and to 0.6000000000000001 group by group. *)
Lemma revenue_not_conserved :
  ~ (forall df : list (Csv.Row Q),
        df <> [] ->
        (sumQ (map Csv.m_total_revenue (exact_metrics df))
         == sumQ (Csv.present (map Csv.total_revenue df)))%Q) /\
  ~ (forall df : list (Csv.Row PrimFloat.float),
        df <> [] ->
        float_sum (map Csv.m_total_revenue (float_metrics df))
        = float_sum (Csv.present (map Csv.total_revenue df))).
Proof.
  split; intros H.
  - specialize (H [Csv.mkRow (Some 0) (Some "A"%string) (Some "Tea"%string) None
                             (Some 1) (Some (5#1)) (Some (5#1))] ltac:(discriminate)).
    vm_compute in H. discriminate H.
  - set (row := fun s n =>
                  Csv.mkRow (Some 0) (Some s) (Some s) (Some "Snacks"%string)
                            (Some 1) (Some (decimal n 10)) (Some (decimal n 10))).
    specialize (H [row "A"%string 1; row "B"%string 4; row "A"%string 1]
                  ltac:(discriminate)).
    apply (f_equal (fun x => PrimFloat.eqb x (decimal 6 10))) in H.
    vm_compute in H. discriminate H.
Qed.

(** ** The two frame models agree on complete frames *)

Lemma lift_insert_group (r : TransactionRecord) gs :
  Csv.insert_group key_compare (key_of r) (lift r)
                   (map (fun g => (fst g, map lift (snd g))) gs)
  = map (fun g => (fst g, map lift (snd g))) (insert_group key_compare key_of r gs).
Proof.
  induction gs as [|[k rs] gs IH]; [reflexivity|].
  cbn [map insert_group Csv.insert_group fst snd].
  destruct (key_compare (key_of r) k); cbn [map fst snd].
  - rewrite (map_app lift rs [r]). reflexivity.
  - reflexivity.
  - rewrite IH. reflexivity.
Qed.

Lemma lift_groupby (df : DataFrame) :
  Csv.groupby key_compare Csv.key_of (map lift df)
  = map (fun g => (fst g, map lift (snd g))) (groupby key_compare key_of df).
Proof.
  induction df as [|r df IH] using rev_ind; [reflexivity|].
  rewrite map_app. simpl map.
  rewrite (csv_groupby_snoc key_compare Csv.key_of), groupby_snoc, IH.
  unfold Csv.add_row. simpl. apply lift_insert_group.
Qed.

Lemma present_lift {A : Type} (f : TransactionRecord -> A) (rs : list TransactionRecord) :
  Csv.present (map (fun r => Some (f r)) rs) = map f rs.
Proof. induction rs as [|r rs IH]; simpl; [reflexivity|]. rewrite IH. reflexivity. Qed.

(** On a frame without blank cells the aggregator of the module [Csv],
    run in exact arithmetic, gives the rows of [calculate_sku_metrics]. *)
Lemma complete_frames_agree (df : DataFrame) :
  map lower (exact_metrics (map lift df)) = calculate_sku_metrics df.
Proof.
  unfold exact_metrics, Csv.calculate_sku_metrics, calculate_sku_metrics.
  rewrite lift_groupby, !map_map. apply map_ext. intros [[[s p] c] rs].
  unfold lower. simpl. rewrite !map_map.
  rewrite (present_lift quantity_sold), (present_lift total_revenue),
          (present_lift unit_price), (present_lift date).
  reflexivity.
Qed.

(** ** Ranker: rows counted per group *)

(** C2: a sku listed under two product names is ranked twice, so the
    top 5 of a frame with one distinct sku has two entries, not
    min(5, 1). *)
Theorem ranking_lists_sku_twice :
  let df := [mkRecord 0 "A" "Tea" "Beverages" 1 (2#1) (2#1);
             mkRecord 0 "A" "Green Tea" "Beverages" 1 (2#1) (2#1)] in
  map m_sku (top_skus stable_sort TotalRevenue 5 df) = ["A"; "A"]%string /\
  distinct_skus df = ["A"]%string /\
  List.length (top_skus stable_sort TotalRevenue 5 df)
  <> Nat.min (Z.to_nat 5) (List.length (distinct_skus df)).
Proof. repeat split; vm_compute; try reflexivity. discriminate. Qed.

(** X28: for [N >= 0] the ranking has [min N rows] entries, where [rows]
    is the number of rows of the aggregator; with no more than [N] rows
    all of them are listed. *)
Theorem ranking_length (srt : Sorter) (df : DataFrame) (metric : Metric) (N : Z) :
  sorter_ok srt -> 0 <= N ->
  List.length (top_skus srt metric N df)
  = Nat.min (Z.to_nat N) (List.length (calculate_sku_metrics df)) /\
  (Z.of_nat (List.length (calculate_sku_metrics df)) <= N ->
   Permutation (top_skus srt metric N df) (calculate_sku_metrics df)).
Proof.
  intros Hsrt HN. unfold top_skus.
  rewrite head_firstn by lia. rewrite sku_metrics_sorted_eq.
  set (rows := calculate_sku_metrics df).
  pose proof (sort_values_desc_perm srt Hsrt (metric_column metric) rows) as Hp.
  split.
  - rewrite length_firstn. rewrite (Permutation_length Hp). reflexivity.
  - intros Hfew. rewrite firstn_all2; [exact Hp|].
    rewrite (Permutation_length Hp). lia.
Qed.

Lemma ranking_length_witness :
  let df := [mkRecord 0 "A" "Tea" "Beverages" 10 (2#1) (20#1);
             mkRecord 0 "B" "Mug" "Home" 1 (100#1) (100#1);
             mkRecord 0 "C" "Jam" "Pantry" 4 (5#1) (20#1)] in
  List.length (top_skus stable_sort TotalRevenue 2 df) = 2%nat /\
  Permutation (top_skus stable_sort TotalRevenue 5 df) (calculate_sku_metrics df).
Proof.
  intros df. split.
  - rewrite (proj1 (ranking_length stable_sort df TotalRevenue 2 stable_sort_ok ltac:(lia))).
    reflexivity.
  - apply (proj2 (ranking_length stable_sort df TotalRevenue 5 stable_sort_ok ltac:(lia))).
    vm_compute. discriminate.
Defined.

(** ** Date-range filter on frames with blank dates *)

(** X1: when some row has a date, the range the date picker starts
    from keeps exactly the rows that have one; a row with a blank date
    is dropped. *)
Theorem csv_default_range_keeps_dated_rows {num : Type} (df : list (Csv.Row num)) :
  (exists r, In r df /\ Csv.date r <> None) ->
  Csv.df_filtered df (Csv.default_range df)
  = filter (fun r => Csv.is_some (Csv.date r)) df.
Proof.
  intros Hex. unfold Csv.default_range.
  assert (Hne : Csv.present (map Csv.date df) <> [])
    by (apply present_dates_nonempty; exact Hex).
  destruct (col_min (Csv.present (map Csv.date df))) as [lo|] eqn:Elo;
    [|destruct (Csv.present (map Csv.date df)); [congruence | discriminate]].
  destruct (col_max (Csv.present (map Csv.date df))) as [hi|] eqn:Ehi;
    [|destruct (Csv.present (map Csv.date df)); [congruence | discriminate]].
  rewrite csv_df_filtered_pair. unfold dated_within.
  apply filter_ext_in. intros r Hr.
  destruct (Csv.date r) as [t|] eqn:Et; [|reflexivity]. simpl.
  assert (Hin : In t (Csv.present (map Csv.date df))).
  { apply present_In. rewrite <- Et. apply in_map. exact Hr. }
  apply andb_true_iff. rewrite !Z.leb_le. split; apply dt_date_mono.
  - apply (col_min_le _ _ _ Elo Hin).
  - apply (col_max_ge _ _ _ Ehi Hin).
Qed.

Lemma csv_default_range_keeps_dated_rows_witness :
  let df := [Csv.mkRow (Some 0) (Some "A"%string) (Some "Tea"%string)
                       (Some "Beverages"%string) (Some 3) (Some (2#1)) (Some (6#1));
             Csv.mkRow None (Some "B"%string) (Some "Mug"%string)
                       (Some "Home"%string) (Some 1) (Some (9#1)) (Some (9#1))] in
  map Csv.sku (Csv.df_filtered df (Csv.default_range df)) = [Some "A"%string].
Proof.
  intros df. rewrite (csv_default_range_keeps_dated_rows df).
  - reflexivity.
  - eexists. split; [left; reflexivity | discriminate].
Defined.

(** ** The table on frames with blank cells *)



Section CsvTable.
Context {num ratio : Type}.
Variable sum : list num -> num.
Variable mean : list num -> ratio.
Variable per_unit : num -> Z -> ratio.
Variable per_day : Z -> Z -> ratio.


(** X9: the table lists its rows in strictly ascending order of
    (sku, product_name, category), and the triples it lists are exactly
    those of the frame rows that have all three cells. *)
Theorem csv_metrics_sorted_by_key (df : list (Csv.Row num)) :
  let rows := Csv.calculate_sku_metrics sum mean per_unit per_day df in
  StronglySorted (fun a b => key_compare (Csv.metrics_key a) (Csv.metrics_key b) = Lt) rows /\
  NoDup (map Csv.metrics_key rows) /\
  (forall k, In k (map Csv.metrics_key rows) <->
             exists r, In r df /\ Csv.key_of r = Some k).
Proof.
  intros rows. split; [|split].
  - apply (proj1 (StronglySorted_map (fun a b => key_compare a b = Lt) Csv.metrics_key rows)).
    unfold rows. rewrite csv_metrics_keys.
    apply (proj2 (StronglySorted_map (fun a b => key_compare a b = Lt) fst _)).
    apply (csv_groupby_ascending key_compare Csv.key_of key_compare_trans key_compare_gt
                                 key_compare_eq df).
  - apply csv_metrics_keys_NoDup.
  - intros k. apply csv_metrics_keys_In.
Qed.

(** X10: when the frame rows that have all three key cells give each
    sku one product name and one category, the table has exactly one
    row for each sku of those rows. *)
Theorem csv_consistent_one_row_per_sku (df : list (Csv.Row num)) :
  (forall r1 r2 k1 k2,
      In r1 df -> In r2 df -> Csv.key_of r1 = Some k1 -> Csv.key_of r2 = Some k2 ->
      fst (fst k1) = fst (fst k2) -> k1 = k2) ->
  let rows := Csv.calculate_sku_metrics sum mean per_unit per_day df in
  NoDup (map Csv.m_sku rows) /\
  (forall s, In s (map Csv.m_sku rows) <->
             exists r k, In r df /\ Csv.key_of r = Some k /\ fst (fst k) = s).
Proof.
  intros Hc rows.
  assert (E : map Csv.m_sku rows
              = map (fun k : group_key => fst (fst k)) (map Csv.metrics_key rows))
    by (rewrite map_map; reflexivity).
  rewrite E. split.
  - apply NoDup_map_on; [apply csv_metrics_keys_NoDup|].
    intros a b Ha Hb Hab.
    apply csv_metrics_keys_In in Ha. destruct Ha as [r1 [H1 K1]].
    apply csv_metrics_keys_In in Hb. destruct Hb as [r2 [H2 K2]].
    apply (Hc r1 r2 a b H1 H2 K1 K2 Hab).
  - intros s. rewrite in_map_iff. split.
    + intros [k [Hk Hin]]. apply csv_metrics_keys_In in Hin.
      destruct Hin as [r [Hr Hkey]]. exists r, k. tauto.
    + intros [r [k [Hr [Hkey Hs]]]]. exists k. split; [exact Hs|].
      apply csv_metrics_keys_In. exists r. tauto.
Qed.


End CsvTable.

Lemma csv_consistent_one_row_per_sku_witness :
  let df := [Csv.mkRow (Some 0) (Some "A"%string) (Some "Tea"%string)
                       (Some "Beverages"%string) (Some 3) (Some (2#1)) (Some (6#1));
             Csv.mkRow (Some 0) (Some "A"%string) None
                       (Some "Beverages"%string) (Some 1) (Some (2#1)) (Some (2#1))] in
  NoDup (map Csv.m_sku (exact_metrics df)).
Proof.
  intros df.
  apply (csv_consistent_one_row_per_sku sumQ mean
           (fun revenue quantity => fdiv revenue (inject_Z quantity))
           (fun quantity days => fdiv (inject_Z quantity) (inject_Z days)) df).
  intros r1 r2 k1 k2 H1 H2. simpl in H1, H2.
  destruct H1 as [<-|[<-|[]]]; destruct H2 as [<-|[<-|[]]]; simpl;
    intros K1 K2; try discriminate K1; try discriminate K2.
  injection K1 as <-. injection K2 as <-. reflexivity.
Defined.
